(** * Cobalt Strike MCP bridge: session client, data views, bind path

    A shallow embedding of [cs_client.py], [cs_resources.py] and the path
    normalisation of [cs_server.py], with the properties the design document
    states about them.

    Conventions of the embedding.
    - A Python [str] is a [string]; a character is a code point below 256.
    - A value produced by [json.loads] (or handed to [json.dumps]) is a [json];
      Python's [None] is [JNull]; a [dict] is an association list in insertion
      order.
    - An [httpx.AsyncClient] is an object in a store; a reference to it is its
      index in the store, so object identity is equality of references.
    - A coroutine is a function in the monad [M]: it threads the store and the
      [CobaltStrikeClient] instance, and returns a value or raises.
    - What the remote platform answers is an [Upstream]: for every request the
      awaited call returns a response or raises.
    - Whether [httpx.AsyncClient(...)] accepts its arguments is left to a
      function of those arguments: it raises for a base URL it cannot parse
      and for a header value it cannot encode.
    - A data view returns [json.dumps(v, indent=2)]; the model returns [v]. *)

From Stdlib Require Import ZArith String Ascii List Bool Lia.
From Stdlib Require Import Floats.SpecFloat.
From stdpp Require Import base option list strings pretty gmap.

Set Warnings "-register-all".
Local Open Scope string_scope.

(** ** Python strings *)

Module PyStr.

(** [str.isspace] on the code points below 256. *)
Definition isspace (c : ascii) : bool :=
  let n := nat_of_ascii c in
  ((9 <=? n)%nat && (n <=? 13)%nat) || ((28 <=? n)%nat && (n <=? 32)%nat)
  || (n =? 133)%nat || (n =? 160)%nat.

Definition in_chars (chars : string) (c : ascii) : bool :=
  existsb (Ascii.eqb c) (list_ascii_of_string chars).

Fixpoint lstrip_by (p : ascii -> bool) (s : string) : string :=
  match s with
  | EmptyString => EmptyString
  | String c s' => if p c then lstrip_by p s' else s
  end.

Fixpoint rstrip_by (p : ascii -> bool) (s : string) : string :=
  match s with
  | EmptyString => EmptyString
  | String c s' =>
      match rstrip_by p s' with
      | EmptyString => if p c then EmptyString else String c EmptyString
      | r => String c r
      end
  end.

(** [s.strip()] *)
Definition strip (s : string) : string :=
  rstrip_by isspace (lstrip_by isspace s).

(** [s.rstrip(chars)] *)
Definition rstrip (chars s : string) : string :=
  rstrip_by (in_chars chars) s.

(** [s.startswith(pre)] *)
Fixpoint startswith (pre s : string) : bool :=
  match pre, s with
  | EmptyString, _ => true
  | String a pre', String b s' => Ascii.eqb a b && startswith pre' s'
  | String _ _, EmptyString => false
  end.

(** [s.endswith(suf)] *)
Fixpoint endswith (suf s : string) : bool :=
  String.eqb suf s
  || match s with
     | EmptyString => false
     | String _ s' => endswith suf s'
     end.

(** Truth value of a string: [bool(s)]. *)
Definition nonempty (s : string) : bool :=
  match s with EmptyString => false | String _ _ => true end.

(** [x or y] on strings. *)
Definition or_else (x y : string) : string := if nonempty x then x else y.

(** [str(n)] for an [int]. *)
Definition of_int (n : Z) : string := pretty n.

(** [str(len(l))]. *)
Definition of_len {A} (l : list A) : string := pretty (length l).

End PyStr.

(** ** JSON values *)

Inductive json : Type :=
| JNull
| JBool (b : bool)
| JInt (n : Z)
| JFloat (f : spec_float)
| JString (s : string)
| JList (items : list json)
| JDict (fields : list (string * json)).

Abbreviation pydict := (list (string * json)).

Module PyDict.

(** [d.get(k)], before the default is applied. *)
Fixpoint lookup (k : string) (d : pydict) : option json :=
  match d with
  | [] => None
  | (k', v) :: d' => if String.eqb k k' then Some v else lookup k d'
  end.

(** [d[k] = v]: an existing key keeps its place, a new key goes last. *)
Fixpoint set (k : string) (v : json) (d : pydict) : pydict :=
  match d with
  | [] => [(k, v)]
  | (k', v') :: d' =>
      if String.eqb k k' then (k', v) :: d' else (k', v') :: set k v d'
  end.

End PyDict.

(** [bool(v)]: the values an [if not v] rejects. *)
Definition truthy (v : json) : bool :=
  match v with
  | JNull => false
  | JBool b => b
  | JInt n => negb (n =? 0)%Z
  | JFloat (S754_zero _) => false
  | JFloat _ => true
  | JString s => PyStr.nonempty s
  | JList l => match l with [] => false | _ => true end
  | JDict d => match d with [] => false | _ => true end
  end.

(** The name [type(v).__name__] of a JSON value's Python type. *)
Definition type_name (v : json) : string :=
  match v with
  | JNull => "NoneType"
  | JBool _ => "bool"
  | JInt _ => "int"
  | JFloat _ => "float"
  | JString _ => "str"
  | JList _ => "list"
  | JDict _ => "dict"
  end.

(** ** Responses and exceptions *)

(** What a call gives back: a value, or an exception of type [E]. *)
Inductive outcome (E A : Type) : Type :=
| Ok (a : A)
| Raise (e : E).
Arguments Ok {E A} a.
Arguments Raise {E A} e.

(** An [httpx.Response]. [text] is the decoded body; [parsed] is what
    [response.json()] does on it: the parsed value, or a
    [json.JSONDecodeError] with the given message. The two fields are not
    tied to each other, so every statement below holds for any parser. *)
Record Response : Type := mkResponse {
  status_code : Z;
  text : string;
  parsed : outcome string json
}.

(** The exceptions the code raises or handles. All of them derive from
    Python's [Exception], which is what [except Exception] catches. *)
Inductive exn : Type :=
| RuntimeError (msg : string)
| HTTPStatusError (response : Response) (msg : string)
    (* httpx.HTTPStatusError, a subclass of httpx.HTTPError *)
| HTTPError (msg : string)
    (* any other httpx.HTTPError: connection, timeout, protocol, ... *)
| JSONDecodeError (msg : string)
| AttributeError (msg : string)
| KeyError (msg : string)
| TypeError (msg : string)
| InvalidURL (msg : string)
    (* httpx.InvalidURL; not an httpx.HTTPError *)
| UnicodeEncodeError (msg : string)
| OtherException (msg : string).

(** [str(exc)] *)
Definition exn_str (e : exn) : string :=
  match e with
  | RuntimeError m | HTTPStatusError _ m | HTTPError m
  | JSONDecodeError m | AttributeError m | KeyError m | TypeError m
  | InvalidURL m | UnicodeEncodeError m | OtherException m => m
  end.

Abbreviation result := (outcome exn).

(** The remote platform as seen through an awaited [client.post] or
    [client.get]: the call returns a response or raises. A POST is answered
    from its path and JSON payload, a GET from its path. *)
Record Upstream : Type := mkUpstream {
  on_post : string -> json -> result Response;
  on_get : string -> result Response
}.

(** ** The object store and the coroutine monad *)

(** An [httpx.AsyncClient]: the keyword arguments it was constructed with,
    and whether [aclose] has run on it. *)
Record AsyncClient : Type := mkAsyncClient {
  ac_base_url : string;
  ac_verify : bool;
  ac_timeout : spec_float;
  ac_headers : gmap string string;
  ac_closed : bool
}.

(** A reference to an [AsyncClient]: its position in the store. *)
Abbreviation ref := nat (only parsing).

(** The instance attributes of a [CobaltStrikeClient]. *)
Record CobaltStrikeClient : Type := mkCobaltStrikeClient {
  base_url : string;
  verify_tls : bool;
  timeout : spec_float;
  _token : json;          (* str | None *)
  _client : option ref    (* httpx.AsyncClient | None *)
}.

Record State : Type := mkState {
  self : CobaltStrikeClient;
  store : list AsyncClient
}.

Definition M (A : Type) : Type := State -> result A * State.

Definition ret {A} (a : A) : M A := fun st => (Ok a, st).

Definition raise {A} (e : exn) : M A := fun st => (Raise e, st).

Definition bind {A B} (m : M A) (k : A -> M B) : M B :=
  fun st =>
    match m st with
    | (Ok a, st') => k a st'
    | (Raise e, st') => (Raise e, st')
    end.

Notation "'let*' x ':=' m 'in' k" := (bind m (fun x => k))
  (at level 10, x name, m at level 100, k at level 200).

(** [try: body / except Exception as e: handler e]. What the body did to the
    state before it raised stays done. *)
Definition try_except {A} (body : M A) (handler : exn -> M A) : M A :=
  fun st =>
    match body st with
    | (Ok a, st') => (Ok a, st')
    | (Raise e, st') => handler e st'
    end.

(** [try: body / finally: cleanup]. *)
Definition try_finally {A} (body : M A) (cleanup : M unit) : M A :=
  fun st =>
    match body st with
    | (r, st') =>
        match cleanup st' with
        | (Ok _, st'') => (r, st'')
        | (Raise e, st'') => (Raise e, st'')
        end
    end.

(** Lift the outcome of an awaited library call. *)
Definition await {A} (r : result A) : M A := fun st => (r, st).

Definition get_self : M CobaltStrikeClient := fun st => (Ok (self st), st).

Definition set_token (t : json) : M unit :=
  fun st =>
    let c := self st in
    (Ok tt,
     mkState (mkCobaltStrikeClient (base_url c) (verify_tls c) (timeout c)
                t (_client c))
             (store st)).

Definition set_client (r : option ref) : M unit :=
  fun st =>
    let c := self st in
    (Ok tt,
     mkState (mkCobaltStrikeClient (base_url c) (verify_tls c) (timeout c)
                (_token c) r)
             (store st)).

(** What the constructor of [httpx.AsyncClient] makes of its keyword
    arguments: [None] when it accepts them, the exception it raises when it
    does not ([httpx.InvalidURL] for a base URL it cannot parse,
    [UnicodeEncodeError] for a header value outside ASCII, ...). *)
Abbreviation constructor_check :=
  (string -> bool -> spec_float -> gmap string string -> option exn).

(** [httpx.AsyncClient(base_url=..., verify=..., timeout=..., headers=...)]:
    the constructor raises, and nothing is built; or a new object, open, is
    put at the end of the store. *)
Definition AsyncClient_new (construct_error : constructor_check)
    (b : string) (v : bool) (t : spec_float) (h : gmap string string)
  : M ref :=
  fun st =>
    match construct_error b v t h with
    | Some e => (Raise e, st)
    | None =>
        (Ok (length (store st)),
         mkState (self st) (store st ++ [mkAsyncClient b v t h false])%list)
    end.

Definition mark_closed (a : AsyncClient) : AsyncClient :=
  mkAsyncClient (ac_base_url a) (ac_verify a) (ac_timeout a) (ac_headers a)
    true.

(** [await client.aclose()]: releases the connection pool; the library call
    itself does not raise. *)
Definition aclose (r : ref) : M unit :=
  fun st => (Ok tt, mkState (self st) (alter mark_closed r (store st))).

(** [await client.post(path, json=payload)] and [await client.get(path)].
    The answer is the platform's: what the library makes of the client it
    is called on (its headers, a closed pool) is part of that answer. *)
Definition client_post (up : Upstream) (r : ref) (path : string)
    (payload : json) : M Response :=
  await (on_post up path payload).

Definition client_get (up : Upstream) (r : ref) (path : string) : M Response :=
  await (on_get up path).

(** [response.is_success] of httpx: a status in 200..299. *)
Definition is_success (r : Response) : bool :=
  (200 <=? status_code r)%Z && (status_code r <=? 299)%Z.

(** [response.json()] *)
Definition response_json (r : Response) : M json :=
  match parsed r with
  | Ok v => ret v
  | Raise m => raise (JSONDecodeError m)
  end.

(** [data.get(key)] on whatever [response.json()] returned: a [dict] answers
    with the value or [None], any other type has no attribute [get]. *)
Definition method_get (data : json) (key : string) : M json :=
  match data with
  | JDict d => ret (default JNull (PyDict.lookup key d))
  | v => raise (AttributeError
                  ("'" ++ type_name v ++ "' object has no attribute 'get'"))
  end.

Definition USER_AGENT : string := "cs-mcp/1.0".

(** ** [cs_client.py]: class [CobaltStrikeClient] *)

Section Client.

(** Three functions of the libraries the code calls, left open: what the
    constructor of [httpx.AsyncClient] raises for its arguments, the message
    httpx gives the [HTTPStatusError] that [raise_for_status] raises for a
    response, and Python's [str] on a float, list or dict. *)
Variable construct_error : constructor_check.
Variable status_error_str : Response -> string.
Variable str_compound : json -> string.

(** [response.raise_for_status()] *)
Definition raise_for_status (r : Response) : M unit :=
  if is_success r then ret tt
  else raise (HTTPStatusError r (status_error_str r)).

(** [f"{v}"] *)
Definition format_value (v : json) : string :=
  match v with
  | JString s => s
  | JNull => "None"
  | JBool true => "True"
  | JBool false => "False"
  | JInt n => PyStr.of_int n
  | _ => str_compound v
  end.

(** [CobaltStrikeClient.__init__] *)
Definition init (base : string) (verify : bool) (t : spec_float)
  : CobaltStrikeClient :=
  mkCobaltStrikeClient (PyStr.rstrip "/" base) verify t JNull None.

Definition login_headers : gmap string string :=
  {[ "User-Agent" := USER_AGENT; "Accept" := "application/json" ]}.

(** The dictionary bound to [payload] in [authenticate]. *)
Definition login_payload (username password : string) (duration_ms : Z)
  : json :=
  JDict [("username", JString username);
         ("password", JString password);
         ("duration_ms", JInt duration_ms)].

(** [CobaltStrikeClient.authenticate] *)
Definition authenticate (up : Upstream) (username password : string)
    (duration_ms : Z) (login_path : string) : M json :=
  let payload := login_payload username password duration_ms in
  let* me := get_self in
  let* client := AsyncClient_new construct_error (base_url me)
                   (verify_tls me) (timeout me) login_headers in
  let* data :=
    try_finally
      (try_except
         (let* response := client_post up client login_path payload in
          let* _ := raise_for_status response in
          response_json response)
         (fun exc =>
            match exc with
            | HTTPStatusError r _ =>
                let detail := PyStr.strip (text r) in
                raise (RuntimeError
                         ("Authentication failed with status "
                          ++ PyStr.of_int (status_code r) ++ ": "
                          ++ PyStr.or_else detail (exn_str exc)))
            | HTTPError _ =>
                raise (RuntimeError
                         ("Authentication request failed: "
                          ++ exn_str exc))
            | _ => raise exc
            end))
      (aclose client) in
  let* token := method_get data "access_token" in
  if negb (truthy token) then
    raise (RuntimeError
             "Authentication response did not include 'access_token'.")
  else
    let* _ := set_token token in
    ret token.

Definition auth_headers (token : json) : gmap string string :=
  {[ "Authorization" := "Bearer " ++ format_value token;
     "User-Agent" := USER_AGENT;
     "Accept" := "application/json" ]}.

(** [CobaltStrikeClient.get_authenticated_client] *)
Definition get_authenticated_client : M ref :=
  let* me := get_self in
  if negb (truthy (_token me)) then
    raise (RuntimeError "Not authenticated. Call authenticate() first.")
  else
    match _client me with
    | None =>
        let* c := AsyncClient_new construct_error (base_url me)
                    (verify_tls me) (timeout me)
                    (auth_headers (_token me)) in
        let* _ := set_client (Some c) in
        ret c
    | Some c => ret c
    end.

(** [CobaltStrikeClient.close]. An [AsyncClient] object is always true in
    a condition, so [if self._client] tests it against [None]. *)
Definition close : M unit :=
  let* me := get_self in
  match _client me with
  | Some c => let* _ := aclose c in set_client None
  | None => ret tt
  end.

(** The life of one Session Client. [session b v t o st] says that [st] is a
    state of a client constructed as [CobaltStrikeClient(b, v, t)] and then
    driven through its methods, and that [o] is the token returned by its
    most recent successful login ([None] while no login has succeeded). *)
Inductive session (b : string) (v : bool) (t : spec_float)
  : option json -> State -> Prop :=
| session_init objs :
    session b v t None (mkState (init b v t) objs)
| session_login up username password duration_ms login_path o st tok st' :
    session b v t o st ->
    authenticate up username password duration_ms login_path st
    = (Ok tok, st') ->
    session b v t (Some tok) st'
| session_login_failed up username password duration_ms login_path o st e
    st' :
    session b v t o st ->
    authenticate up username password duration_ms login_path st
    = (Raise e, st') ->
    session b v t o st'
| session_get o st :
    session b v t o st ->
    session b v t o (snd (get_authenticated_client st))
| session_close o st :
    session b v t o st ->
    session b v t o (snd (close st)).

(** What holds in every state of a session: the constructor's arguments are
    still in place, the stored token is the last one a login returned and is
    a true value, and the shared client, when there is one, is an open
    object of the store built with this client's address, TLS flag and
    timeout, from arguments the constructor accepts. *)
Definition session_ok (b : string) (v : bool) (t : spec_float)
    (o : option json) (st : State) : Prop :=
  base_url (self st) = PyStr.rstrip "/" b
  /\ verify_tls (self st) = v
  /\ timeout (self st) = t
  /\ _token (self st) = default JNull o
  /\ (forall tok, o = Some tok -> truthy tok = true)
  /\ (forall r, _client (self st) = Some r ->
      exists h,
        store st !! r
        = Some (mkAsyncClient (PyStr.rstrip "/" b) v t h false)
        /\ construct_error (PyStr.rstrip "/" b) v t h = None).

(** The object a constructing [get_authenticated_client] puts in the store
    for a client whose attributes are [me]. *)
Definition shared_client (me : CobaltStrikeClient) : AsyncClient :=
  mkAsyncClient (base_url me) (verify_tls me) (timeout me)
    (auth_headers (_token me)) false.

(** The attributes of a state, with the client reference replaced. *)
Definition with_client (me : CobaltStrikeClient) (r : option ref)
  : CobaltStrikeClient :=
  mkCobaltStrikeClient (base_url me) (verify_tls me) (timeout me)
    (_token me) r.

(** The attributes of a state, with the token replaced. *)
Definition with_token (me : CobaltStrikeClient) (tok : json)
  : CobaltStrikeClient :=
  mkCobaltStrikeClient (base_url me) (verify_tls me) (timeout me)
    tok (_client me).

(** The short-lived login client, as [authenticate] leaves it: closed. *)
Definition login_client (me : CobaltStrikeClient) : AsyncClient :=
  mkAsyncClient (base_url me) (verify_tls me) (timeout me) login_headers true.

(** The constructor accepts the arguments of the login client, so
    [authenticate] gets as far as sending its request. *)
Definition login_constructible (me : CobaltStrikeClient) : bool :=
  match
    construct_error (base_url me) (verify_tls me) (timeout me) login_headers
  with
  | None => true
  | Some _ => false
  end.

(** The shared client can be handed out: one is held, or the constructor
    accepts the arguments it would be built with. *)
Definition obtainable (me : CobaltStrikeClient) : bool :=
  match _client me with
  | Some _ => true
  | None =>
      match
        construct_error (base_url me) (verify_tls me) (timeout me)
          (auth_headers (_token me))
      with
      | None => true
      | Some _ => false
      end
  end.

(** A token is stored and the shared client can be handed out: the case in
    which [get_authenticated_client] returns, and a request can be sent. *)
Definition ready (st : State) : bool :=
  truthy (_token (self st)) && obtainable (self st).

(** [after_login b v t tok st]: the state [st] follows a successful login
    that returned [tok], made while the session held no shared client built
    from another token; since that login there have been only failed
    logins, requests for the shared client and closes. *)
Inductive after_login (b : string) (v : bool) (t : spec_float) (tok : json)
  : State -> Prop :=
| after_login_ok up username password duration_ms login_path o st st' :
    session b v t o st ->
    (forall r a,
        _client (self st) = Some r -> store st !! r = Some a ->
        ac_headers a = auth_headers tok) ->
    authenticate up username password duration_ms login_path st
    = (Ok tok, st') ->
    after_login b v t tok st'
| after_login_failed up username password duration_ms login_path st e st' :
    after_login b v t tok st ->
    authenticate up username password duration_ms login_path st
    = (Raise e, st') ->
    after_login b v t tok st'
| after_login_get st :
    after_login b v t tok st ->
    after_login b v t tok (snd (get_authenticated_client st))
| after_login_close st :
    after_login b v t tok st ->
    after_login b v t tok (snd (close st)).

End Client.

(** ** [cs_resources.py]: the data views *)

Section Resources.

Variable construct_error : constructor_check.
Variable str_compound : json -> string.

Local Abbreviation get_authenticated_client :=
  (get_authenticated_client construct_error str_compound).

Definition exception_envelope (e : exn) (message : string) : json :=
  JDict [("error", JString "Exception occurred");
         ("exception", JString (exn_str e));
         ("message", JString message)].

(** [d[k1][k2] = v] *)
Definition setitem2 (k1 k2 : string) (v : json) (d : pydict) : M pydict :=
  match PyDict.lookup k1 d with
  | None => raise (KeyError ("'" ++ k1 ++ "'"))
  | Some (JDict inner) => ret (PyDict.set k1 (JDict (PyDict.set k2 v inner)) d)
  | Some w =>
      raise (TypeError
               ("'" ++ type_name w
                ++ "' object does not support item assignment"))
  end.

(** The value bound to [version_data] after the first request. *)
Definition version_data (localip_response : Response) : json :=
  if (status_code localip_response =? 200)%Z then
    JDict [("version", JString "available");
           ("api_status", JString "operational");
           ("local_ip", JString (text localip_response))]
  else
    JDict [("version", JString "unknown");
           ("api_status", JString "limited")].

(** The dictionary literal bound to [server_info]. *)
Definition server_info_literal (cs_client : CobaltStrikeClient)
    (version_data : json) : pydict :=
  [("cobalt_strike",
    JDict [("version", version_data);
           ("api_base_url", JString (base_url cs_client));
           ("health_status", JString "connected")]);
   ("mcp_server",
    JDict [("name", JString "Cobalt Strike API");
           ("authenticated", JBool true);
           ("transport", JString "MCP");
           ("capabilities",
            JList [JString "tools"; JString "prompts"; JString "resources"])]);
   ("api_endpoints",
    JDict [("base_url", JString (base_url cs_client));
           ("api_docs", JString (base_url cs_client ++ "/v3/api-docs"));
           ("health_check", JString (base_url cs_client ++ "/api/v1/version"));
           ("authentication",
            JString (base_url cs_client ++ "/api/auth/login"))]);
   ("resources",
    JDict [("beacons", JString "cobalt-strike://beacons/active");
           ("server_info", JString "cobalt-strike://config/server-info");
           ("activity_logs", JString "cobalt-strike://logs/recent-activity");
           ("listeners", JString "cobalt-strike://listeners/active")])].

(** [server_info_resource] *)
Definition server_info_resource (up : Upstream) : M json :=
  try_except
    (let* client := get_authenticated_client in
     let* localip_response := client_get up client "/api/v1/config/localip" in
     let version_data := version_data localip_response in
     let* cs_client := get_self in
     let server_info := server_info_literal cs_client version_data in
     let* response :=
       client_get up client "/api/v1/config/systeminformation" in
     let* server_info :=
       if (status_code response =? 200)%Z then
         let system_information := text response in
         setitem2 "cobalt_strike" "system_information"
           (JString system_information) server_info
       else ret server_info in
     ret (JDict server_info))
    (fun e =>
       ret (exception_envelope e "Error while fetching server information")).

(** [len(v) if isinstance(v, list) else 1] *)
Definition len_or_one (v : json) : Z :=
  match v with
  | JList l => Z.of_nat (length l)
  | _ => 1
  end.

(** [recent_activity_resource] *)
Definition recent_activity_resource (up : Upstream) : M json :=
  try_except
    (let* client := get_authenticated_client in
     let* response := client_get up client "/api/v1/tasks" in
     if (status_code response =? 200)%Z then
       let* tasks_data := response_json response in
       let recent_tasks :=
         match tasks_data with
         | JList l => JList (take 50 l)
         | v => v
         end in
       let activity_summary :=
         [("metadata",
           JDict [("timestamp", JString "recent");
                  ("total_tasks_shown", JInt (len_or_one recent_tasks));
                  ("total_tasks_available", JInt (len_or_one tasks_data));
                  ("note",
                   JString
                     "Limited to 50 most recent tasks for performance")]);
          ("activities", recent_tasks)] in
       ret (JDict activity_summary)
     else
       ret (JDict [("error", JString "Failed to fetch activity logs");
                   ("status_code", JInt (status_code response));
                   ("message",
                    JString "Unable to retrieve recent activity data")]))
    (fun e =>
       ret (exception_envelope e "Error while fetching activity logs")).

Definition endpoints : list (string * string) :=
  [("beacons", "/api/v1/beacons");
   ("listeners", "/api/v1/listeners");
   ("tasks", "/api/v1/tasks")].

(** The body of the loop of [dashboard_stats_resource]: one endpoint is
    queried inside its own [try], and [stats[name]] is assigned on every
    path. *)
Definition dashboard_query (up : Upstream) (client : ref)
    (name endpoint : string) (stats : pydict) : M pydict :=
  try_except
    (let* response := client_get up client endpoint in
     if (status_code response =? 200)%Z then
       let* data := response_json response in
       match data with
       | JList l =>
           ret (PyDict.set name
                  (JDict [("count", JString (PyStr.of_len l));
                          ("status", JString "available")]) stats)
       | _ =>
           ret (PyDict.set name
                  (JDict [("count", JString "1");
                          ("status", JString "available")]) stats)
       end
     else
       ret (PyDict.set name
              (JDict [("count", JString "0");
                      ("status", JString "unavailable");
                      ("error_code",
                       JString (PyStr.of_int (status_code response)))])
              stats))
    (fun endpoint_error =>
       ret (PyDict.set name
              (JDict [("count", JString "0");
                      ("status", JString "error");
                      ("error", JString (exn_str endpoint_error))])
              stats)).

(** [for name, endpoint in endpoints.items(): ...] *)
Fixpoint dashboard_loop (up : Upstream) (client : ref)
    (items : list (string * string)) (stats : pydict) : M pydict :=
  match items with
  | [] => ret stats
  | (name, endpoint) :: rest =>
      let* stats := dashboard_query up client name endpoint stats in
      dashboard_loop up client rest stats
  end.

(** [dashboard_stats_resource] *)
Definition dashboard_stats_resource (up : Upstream) : M json :=
  try_except
    (let* client := get_authenticated_client in
     let stats :=
       [("dashboard",
         JDict [("timestamp", JString "real-time");
                ("status", JString "operational")])] in
     let* stats := dashboard_loop up client endpoints stats in
     ret (JDict stats))
    (fun e =>
       ret (exception_envelope e
              "Error while fetching dashboard statistics")).

End Resources.

(** ** [cs_server.py]: [CobaltStrikeMCPServer.run] *)

(** The two assignments to [normalized_path]. *)
Definition normalized_path (path : string) : string :=
  let normalized_path :=
    if PyStr.startswith "/" path then path else "/" ++ path in
  PyStr.or_else (PyStr.rstrip "/" normalized_path) "/".

(** The keyword arguments of one call of [self._mcp_server.run_async]. *)
Record run_async_call : Type := mkRunAsync {
  ra_transport : string;
  ra_host : option string;
  ra_port : option Z;
  ra_path : option string;
  ra_log_level : option string
}.

(** [run], up to the call it hands over to the protocol runtime:
    [created] says whether [self._mcp_server] is set. *)
Definition run (created : bool) (transport host : string) (port : Z)
    (path : string) (log_level : option string)
  : outcome exn run_async_call :=
  if negb created then
    Raise (RuntimeError "Server not created. Call create_server() first.")
  else
    let normalized_path := normalized_path path in
    let level :=
      match log_level with
      | Some l => if PyStr.nonempty l then Some l else None
      | None => None
      end in
    if String.eqb transport "stdio" then
      Ok (mkRunAsync "stdio" None None None None)
    else if String.eqb transport "http" then
      Ok (mkRunAsync "http" (Some host) (Some port) (Some normalized_path)
            level)
    else if String.eqb transport "streamable-http" then
      Ok (mkRunAsync "streamable-http" (Some host) (Some port)
            (Some normalized_path) level)
    else if String.eqb transport "sse" then
      Ok (mkRunAsync "sse" (Some host) (Some port) (Some normalized_path) None)
    else
      Ok (mkRunAsync "http" (Some host) (Some port) (Some normalized_path)
            None).


(** * What the design document says, stated over the model *)

(** The entry the dashboard reports for one endpoint, as a function of what
    that endpoint alone did: status 200 with a list body, status 200 with
    another JSON body, status 200 with a body that does not parse, any other
    status, a raised exception. *)
Definition dashboard_entry (o : result Response) : json :=
  match o with
  | Ok r =>
      if (status_code r =? 200)%Z then
        match parsed r with
        | Ok (JList l) =>
            JDict [("count", JString (PyStr.of_len l));
                   ("status", JString "available")]
        | Ok _ =>
            JDict [("count", JString "1"); ("status", JString "available")]
        | Raise m =>
            JDict [("count", JString "0"); ("status", JString "error");
                   ("error", JString m)]
        end
      else
        JDict [("count", JString "0"); ("status", JString "unavailable");
               ("error_code", JString (PyStr.of_int (status_code r)))]
  | Raise e =>
      JDict [("count", JString "0"); ("status", JString "error");
             ("error", JString (exn_str e))]
  end.

Definition dashboard_header : json :=
  JDict [("timestamp", JString "real-time");
         ("status", JString "operational")].

(** The entry the design document promises for an endpoint that answered
    with a 2xx status and a list body. *)
Definition available_entry (l : list json) : json :=
  JDict [("count", JString (PyStr.of_len l)); ("status", JString "available")].

(** The metadata block of the recent-activity view. *)
Definition activity_metadata (shown available : Z) : json :=
  JDict [("timestamp", JString "recent");
         ("total_tasks_shown", JInt shown);
         ("total_tasks_available", JInt available);
         ("note", JString "Limited to 50 most recent tasks for performance")].

(** ** Concrete inputs used by the examples *)

(** Every character of the string is below 128. *)
Definition is_ascii (s : string) : bool :=
  forallb (fun c => (nat_of_ascii c <? 128)%nat) (list_ascii_of_string s).

Module Sample.

(** A constructor that refuses one unparsable base URL and any
    [Authorization] value outside ASCII, as httpx does. *)
Definition construct_error : constructor_check :=
  fun b _ _ h =>
    if String.eqb b "http://[::1" then
      Some (InvalidURL "Invalid IPv6 address")
    else
      match h !! "Authorization" with
      | Some value =>
          if is_ascii value then None
          else Some (UnicodeEncodeError
                       "'ascii' codec can't encode character")
      | None => None
      end.

Definition status_error_str (r : Response) : string :=
  "Client error '" ++ PyStr.of_int (status_code r) ++ "'".

Definition str_compound (v : json) : string := "<" ++ type_name v ++ ">".

Definition half_minute : spec_float := S754_finite false 15 1.

Definition fresh : State :=
  mkState (init "https://teamserver:50443/" false half_minute) [].

Definition token_reply (tok : json) : result Response :=
  Ok (mkResponse 200 "{...}" (Ok (JDict [("access_token", tok)]))).

Definition list_reply (code : Z) (n : nat) : result Response :=
  Ok (mkResponse code "[...]" (Ok (JList (replicate n JNull)))).

(** Login answers with a token derived from the user name; every GET
    answers 200 with a list of three items. *)
Definition healthy : Upstream :=
  mkUpstream (fun _ payload =>
                match payload with
                | JDict (("username", JString u) :: _) =>
                    token_reply (JString ("jwt-" ++ u))
                | _ => token_reply JNull
                end)
             (fun _ => list_reply 200 3).

(** Login is rejected with 401 and a padded body. *)
Definition rejecting : Upstream :=
  mkUpstream (fun _ _ => Ok (mkResponse 401 " bad credentials
" (Raise "Expecting value")))
             (fun _ => list_reply 200 3).

(** Login answers 200 with an empty token. *)
Definition empty_token : Upstream :=
  mkUpstream (fun _ _ => token_reply (JString "")) (fun _ => list_reply 200 3).

(** The beacons endpoint answers 201 with a list of two items. *)
Definition created_beacons : Upstream :=
  mkUpstream (on_post healthy)
             (fun path =>
                if String.eqb path "/api/v1/beacons" then list_reply 201 2
                else list_reply 200 3).

(** The system-information request raises; everything else is healthy. *)
Definition sysinfo_down : Upstream :=
  mkUpstream (on_post healthy)
             (fun path =>
                if String.eqb path "/api/v1/config/systeminformation"
                then Raise (HTTPError "All connection attempts failed")
                else list_reply 200 3).

(** The system-information endpoint answers 503. *)
Definition sysinfo_503 : Upstream :=
  mkUpstream (on_post healthy)
             (fun path =>
                if String.eqb path "/api/v1/config/systeminformation"
                then Ok (mkResponse 503 "" (Raise "Expecting value"))
                else list_reply 200 3).

(** The tasks endpoint answers 200 with [n] items. *)
Definition tasks (n : nat) : Upstream :=
  mkUpstream (on_post healthy) (fun _ => list_reply 200 n).

(** The tasks endpoint answers 201, a 2xx status, with [n] items. *)
Definition tasks_created (n : nat) : Upstream :=
  mkUpstream (on_post healthy) (fun _ => list_reply 201 n).

Definition login (up : Upstream) (user : string) : M json :=
  authenticate construct_error status_error_str up user "secret" 86400000
    "/api/auth/login".

(** The state after one successful login as [alice]. *)
Definition logged_in : State := snd (login healthy "alice" fresh).

(** ... and after the shared client has been obtained once. *)
Definition with_shared : State :=
  snd (get_authenticated_client construct_error str_compound logged_in).

(** ... and after a second login, as [bob]. *)
Definition relogged : State := snd (login healthy "bob" with_shared).

(** A user name with an accented letter, code point 233, so that the token
    [healthy] issues for it is not ASCII. *)
Definition accented_user : string :=
  String "r" (String "e" (String "n" (String (ascii_of_nat 233) "e"))).

(** The state after a successful login under that name. *)
Definition logged_in_accented : State :=
  snd (login healthy accented_user fresh).

(** A client whose base URL the constructor cannot parse. *)
Definition unparsable : State :=
  mkState (init "http://[::1" false half_minute) [].

End Sample.

(** * The rest of the three modules *)

(** ** [cs_client.py]: fetching the specification, the context manager *)

Section ClientRest.

Variable construct_error : constructor_check.
Variable status_error_str : Response -> string.
Variable str_compound : json -> string.

(** [CobaltStrikeClient.fetch_openapi_spec]. The client is obtained before
    the [try], so its [RuntimeError] is not rewritten. *)
Definition fetch_openapi_spec (up : Upstream) (spec_url : string) : M json :=
  let* client := get_authenticated_client construct_error str_compound in
  try_except
    (let* response := client_get up client spec_url in
     let* _ := raise_for_status status_error_str response in
     let* spec := response_json response in
     ret spec)
    (fun exc =>
       match exc with
       | HTTPStatusError r _ =>
           let detail := PyStr.strip (text r) in
           raise (RuntimeError
                    ("Failed to fetch OpenAPI spec (status "
                     ++ PyStr.of_int (status_code r) ++ "): "
                     ++ PyStr.or_else detail (exn_str exc)))
       | HTTPError _ =>
           raise (RuntimeError
                    ("Failed to fetch OpenAPI spec: " ++ exn_str exc))
       | _ => raise exc
       end).

(** [async with client: body]. [__aenter__] returns the client itself and
    [__aexit__] awaits [close] and returns [None], so an exception of the
    body goes on to the caller once the client is closed. *)
Definition async_with {A} (body : M A) : M A := try_finally body close.

End ClientRest.

(** ** [cs_resources.py]: the beacon and listener views *)

(** What a view returns: a body text handed on as it came, or
    [json.dumps(v, indent=2)]. *)
Inductive view_body : Type :=
| Verbatim (s : string)
| Dumped (v : json).

Section ResourcesRest.

Variable construct_error : constructor_check.
Variable str_compound : json -> string.

(** [active_beacons_resource] *)
Definition active_beacons_resource (up : Upstream) : M view_body :=
  try_except
    (let* client := get_authenticated_client construct_error str_compound in
     let* response := client_get up client "/api/v1/beacons" in
     if (status_code response =? 200)%Z then
       ret (Verbatim (text response))
     else
       ret (Dumped
              (JDict [("error", JString "Failed to fetch beacons");
                      ("status_code", JInt (status_code response));
                      ("message",
                       JString "Unable to retrieve active beacon data")])))
    (fun e =>
       ret (Dumped (exception_envelope e "Error while fetching beacon data"))).

(** [active_listeners_resource] *)
Definition active_listeners_resource (up : Upstream) : M json :=
  try_except
    (let* client := get_authenticated_client construct_error str_compound in
     let* response := client_get up client "/api/v1/listeners" in
     if (status_code response =? 200)%Z then
       let* listeners_data := response_json response in
       let listener_summary :=
         [("metadata",
           JDict [("total_listeners", JInt (len_or_one listeners_data));
                  ("status", JString "active");
                  ("last_updated", JString "real-time")]);
          ("listeners", listeners_data)] in
       ret (JDict listener_summary)
     else
       ret (JDict [("error", JString "Failed to fetch listeners");
                   ("status_code", JInt (status_code response));
                   ("message", JString "Unable to retrieve listener data")]))
    (fun e =>
       ret (exception_envelope e "Error while fetching listener data")).

End ResourcesRest.

(** ** [cs_server.py]: [_normalize_path_parameter] *)

(** [d.pop(k, None)], for its effect on [d]. *)
Fixpoint dict_pop (k : string) (d : pydict) : pydict :=
  match d with
  | [] => []
  | (k', v) :: d' =>
      if String.eqb k k' then dict_pop k d' else (k', v) :: dict_pop k d'
  end.

(** [d.get(k)] *)
Definition dict_get (k : string) (d : pydict) : json :=
  default JNull (PyDict.lookup k d).

(** [v in ("", None)] *)
Definition is_blank (v : json) : bool :=
  match v with
  | JNull => true
  | JString s => negb (PyStr.nonempty s)
  | _ => false
  end.

(** [v != "path"] *)
Definition not_path (v : json) : bool :=
  match v with
  | JString s => negb (String.eqb s "path")
  | _ => true
  end.

(** [_normalize_path_parameter]: the function returns nothing and changes
    [param] in place; the model returns [param] as the call leaves it. The
    [schema] dictionary is the object stored under [param["schema"]], so
    popping from it shows there. *)
Definition _normalize_path_parameter (param : json) (route_path : string)
  : json :=
  match param with
  | JDict d =>
      if not_path (dict_get "in" d) then param
      else
        let d :=
          if negb (truthy (default (JBool false) (PyDict.lookup "required" d)))
          then PyDict.set "required" (JBool true) d
          else d in
        let d :=
          if is_blank (dict_get "default" d) then dict_pop "default" d
          else d in
        let schema := dict_get "schema" d in
        match schema with
        | JDict sd =>
            if is_blank (dict_get "default" sd) then
              JDict (PyDict.set "schema" (JDict (dict_pop "default" sd)) d)
            else JDict d
        | _ => JDict d
        end
  | _ => param
  end.

(** The three steps of the function on the fields of a path parameter. *)
Definition require_step (d : pydict) : pydict :=
  if negb (truthy (default (JBool false) (PyDict.lookup "required" d)))
  then PyDict.set "required" (JBool true) d
  else d.

Definition default_step (d : pydict) : pydict :=
  if is_blank (dict_get "default" d) then dict_pop "default" d else d.

Definition schema_step (d : pydict) : pydict :=
  match dict_get "schema" d with
  | JDict sd =>
      if is_blank (dict_get "default" sd)
      then PyDict.set "schema" (JDict (dict_pop "default" sd)) d
      else d
  | _ => d
  end.

(** The transports the protocol runtime knows. *)
Definition known_transports : list string :=
  ["stdio"; "http"; "streamable-http"; "sse"].

(** ** [cs_server.py]: the life of [CobaltStrikeMCPServer] *)

(** A [RouteMap] as the code builds it: a tag set or a path pattern, and
    the type [MCPType.EXCLUDE]. *)
Record RouteMap : Type := mkRouteMap {
  rm_tags : list string;
  rm_pattern : option string;
  rm_exclude : bool
}.

(** The keyword arguments of [FastMCP.from_openapi]. *)
Record create_kwargs : Type := mkCreateKwargs {
  kw_openapi_spec : json;
  kw_client : ref;
  kw_name : string;
  kw_tags : list string;
  kw_route_maps : list RouteMap
}.

Section Server.

Variable construct_error : constructor_check.
Variable status_error_str : Response -> string.
Variable str_compound : json -> string.

(** The translation engine, which is not part of the repository: the type
    of its server objects, its constructor (which may raise), and what
    assigning [instructions] and registering the prompts and the resources
    do to a server object. *)
Variable FastMCP : Type.
Variable from_openapi : create_kwargs -> result FastMCP.
Variable set_instructions : string -> FastMCP -> FastMCP.
Variable add_cobalt_strike_prompts : FastMCP -> FastMCP.
Variable add_cobalt_strike_resources : FastMCP -> FastMCP.

(** The attributes of a [CobaltStrikeMCPServer], and beside them the global
    [fastmcp.settings.experimental.enable_new_openapi_parser]. *)
Record CobaltStrikeMCPServer : Type := mkServer {
  server_name : string;
  instructions : option string;
  enable_experimental_parser : bool;
  _mcp_server : option FastMCP;
  new_openapi_parser : bool
}.

(** [CobaltStrikeMCPServer.__init__] *)
Definition server_init (name : string) (instr : option string)
    (experimental : bool) (setting : bool) : CobaltStrikeMCPServer :=
  mkServer name instr experimental None setting.

Definition with_server (me : CobaltStrikeMCPServer) (s : option FastMCP)
  : CobaltStrikeMCPServer :=
  mkServer (server_name me) (instructions me) (enable_experimental_parser me)
    s (new_openapi_parser me).

Definition route_maps : list RouteMap :=
  [mkRouteMap ["Security"] None true;
   mkRouteMap [] (Some "^/.*/config/resetData") true].

(** [create_server]: the server object and the session client are two
    pieces of state, threaded side by side. *)
Definition create_server (up : Upstream) (spec_url : string)
    (me : CobaltStrikeMCPServer) (st : State)
  : result FastMCP * CobaltStrikeMCPServer * State :=
  let me :=
    if enable_experimental_parser me then
      mkServer (server_name me) (instructions me)
        (enable_experimental_parser me) (_mcp_server me) true
    else me in
  match
    fetch_openapi_spec construct_error status_error_str str_compound up
      spec_url st
  with
  | (Raise e, st) => (Raise e, me, st)
  | (Ok openapi_spec, st) =>
      match get_authenticated_client construct_error str_compound st with
      | (Raise e, st) => (Raise e, me, st)
      | (Ok http_client, st) =>
          let create_kwargs :=
            mkCreateKwargs openapi_spec http_client (server_name me)
              ["openapi"; "cobalt-strike"] route_maps in
          match from_openapi create_kwargs with
          | Raise e => (Raise e, me, st)
          | Ok server =>
              let server :=
                match instructions me with
                | Some i =>
                    if PyStr.nonempty i then set_instructions i server
                    else server
                | None => server
                end in
              let server := add_cobalt_strike_prompts server in
              let server := add_cobalt_strike_resources server in
              (Ok server, with_server me (Some server), st)
          end
      end
  end.

(** The server object as [create_server] finishes it. *)
Definition finished (me : CobaltStrikeMCPServer) (s0 : FastMCP) : FastMCP :=
  add_cobalt_strike_resources
    (add_cobalt_strike_prompts
       match instructions me with
       | Some i => if PyStr.nonempty i then set_instructions i s0 else s0
       | None => s0
       end).

(** The wrapper once [create_server] has looked at its parser flag: the
    global setting is switched on when the flag is set, and left alone
    otherwise. *)
Definition parser_chosen (me : CobaltStrikeMCPServer)
  : CobaltStrikeMCPServer :=
  mkServer (server_name me) (instructions me) (enable_experimental_parser me)
    (_mcp_server me) (enable_experimental_parser me || new_openapi_parser me).

(** [run], on the server object: the guard reads [self._mcp_server]. *)
Definition server_run (me : CobaltStrikeMCPServer) (transport host : string)
    (port : Z) (path : string) (log_level : option string)
  : outcome exn run_async_call :=
  run (bool_decide (is_Some (_mcp_server me))) transport host port path
    log_level.

(** [stop] *)
Definition stop (me : CobaltStrikeMCPServer) : CobaltStrikeMCPServer :=
  match _mcp_server me with
  | Some _ => with_server me None
  | None => me
  end.

End Server.

(** The one-open-client discipline: every object of the store that is still
    open is the shared client of the session. *)
Definition only_shared_open (st : State) : Prop :=
  forall i a,
    store st !! i = Some a -> ac_closed a = false ->
    _client (self st) = Some i.

(** One call of a method of the session client, or of a data view. *)
Inductive api_call (construct_error : constructor_check)
    (status_error_str : Response -> string) (str_compound : json -> string)
  : State -> State -> Prop :=
| call_authenticate up username password duration_ms login_path st :
    api_call construct_error status_error_str str_compound st
      (snd (authenticate construct_error status_error_str up username
              password duration_ms
              login_path st))
| call_get_client st :
    api_call construct_error status_error_str str_compound st
      (snd (get_authenticated_client construct_error str_compound st))
| call_fetch_spec up spec_url st :
    api_call construct_error status_error_str str_compound st
      (snd (fetch_openapi_spec construct_error status_error_str str_compound
              up spec_url st))
| call_close st :
    api_call construct_error status_error_str str_compound st (snd (close st))
| call_beacons up st :
    api_call construct_error status_error_str str_compound st
      (snd (active_beacons_resource construct_error str_compound up st))
| call_server_info up st :
    api_call construct_error status_error_str str_compound st
      (snd (server_info_resource construct_error str_compound up st))
| call_recent_activity up st :
    api_call construct_error status_error_str str_compound st
      (snd (recent_activity_resource construct_error str_compound up st))
| call_listeners up st :
    api_call construct_error status_error_str str_compound st
      (snd (active_listeners_resource construct_error str_compound up st))
| call_dashboard up st :
    api_call construct_error status_error_str str_compound st
      (snd (dashboard_stats_resource construct_error str_compound up st)).

(** ** Further concrete inputs *)

Module MoreSample.

Import Sample.

(** A path parameter as a specification may carry it: optional, with blank
    defaults. *)
Definition blank_parameter : pydict :=
  [("name", JString "bid"); ("in", JString "path");
   ("required", JBool false); ("default", JString "");
   ("schema", JDict [("type", JString "string"); ("default", JNull)])].

(** The spec endpoint answers 404 with a short body. *)
Definition spec_missing : Upstream :=
  mkUpstream (on_post healthy)
             (fun _ => Ok (mkResponse 404 "no such document"
                             (Raise "Expecting value"))).

(** No request gets through. *)
Definition unreachable : Upstream :=
  mkUpstream (fun _ _ => Raise (HTTPError "All connection attempts failed"))
             (fun _ => Raise (HTTPError "All connection attempts failed")).

(** Every answer is 200 with a body that is not JSON. *)
Definition not_json : Upstream :=
  mkUpstream (fun _ _ => Ok (mkResponse 200 "<html>" (Raise "Expecting value")))
             (fun _ => Ok (mkResponse 200 "<html>" (Raise "Expecting value"))).

(** Every GET answers 500. *)
Definition failing : Upstream :=
  mkUpstream (on_post healthy)
             (fun _ => Ok (mkResponse 500 "" (Raise "Expecting value"))).

(** A translation engine for the examples: a server object is the list of
    what was done to it; a document that is not a JSON object is refused. *)
Definition toy_from_openapi (kw : create_kwargs) : result (list string) :=
  match kw_openapi_spec kw with
  | JDict _ => Ok [kw_name kw]
  | _ => Raise (OtherException "not an OpenAPI document")
  end.

Definition toy_set_instructions (i : string) (s : list string)
  : list string :=
  (s ++ [String.append "instructions: " i])%list.

Definition toy_prompts (s : list string) : list string :=
  (s ++ ["prompts"])%list.

Definition toy_resources (s : list string) : list string :=
  (s ++ ["resources"])%list.

Definition toy_create :=
  create_server construct_error status_error_str str_compound (list string)
    toy_from_openapi
    toy_set_instructions toy_prompts toy_resources.

Definition toy_server : CobaltStrikeMCPServer (list string) :=
  server_init (list string) "Cobalt Strike API" (Some "be careful") true
    false.

(** The spec endpoint answers 200 with an empty JSON object. *)
Definition spec_object : Upstream :=
  mkUpstream (on_post healthy)
             (fun _ => Ok (mkResponse 200 "{}" (Ok (JDict [])))).

End MoreSample.

(** * Proofs *)

(** ** Strings *)

Lemma rstrip_by_head (p : ascii -> bool) (c : ascii) (s : string) :
  PyStr.rstrip_by p (String c s) = EmptyString
  \/ exists r, PyStr.rstrip_by p (String c s) = String c r.
Proof.
  simpl. destruct (PyStr.rstrip_by p s) as [|a r].
  - destruct (p c); [left | right; exists EmptyString]; reflexivity.
  - right. exists (String a r). reflexivity.
Qed.

Lemma endswith_single_rstrip (c : ascii) (s : string) :
  PyStr.endswith (String c EmptyString)
    (PyStr.rstrip_by (PyStr.in_chars (String c EmptyString)) s) = false.
Proof.
  induction s as [|a s IH]; [reflexivity|].
  simpl PyStr.rstrip_by.
  destruct (PyStr.rstrip_by _ s) as [|b r] eqn:E.
  - unfold PyStr.in_chars at 1. simpl existsb.
    destruct (Ascii.eqb a c) eqn:Eac; simpl; [reflexivity|].
    rewrite Ascii.eqb_sym, Eac. reflexivity.
  - change (PyStr.endswith (String c EmptyString) (String a (String b r)))
      with (String.eqb (String c EmptyString) (String a (String b r))
            || PyStr.endswith (String c EmptyString) (String b r)).
    rewrite IH, orb_false_r. simpl.
    destruct (Ascii.eqb c a); reflexivity.
Qed.

Lemma startswith_slash_normalized (path : string) :
  PyStr.startswith "/" (normalized_path path) = true.
Proof.
  unfold normalized_path, PyStr.or_else, PyStr.rstrip.
  destruct path as [|c s].
  - reflexivity.
  - destruct (PyStr.startswith "/" (String c s)) eqn:Hs.
    + destruct (rstrip_by_head (PyStr.in_chars "/") c s) as [-> | [r ->]].
      * reflexivity.
      * simpl in Hs |- *. rewrite andb_true_r in Hs |- *. exact Hs.
    + destruct (rstrip_by_head (PyStr.in_chars "/") "/" (String c s))
        as [E | [r E]].
      * change ("/" ++ String c s) with (String "/" (String c s)).
        rewrite E. reflexivity.
      * change ("/" ++ String c s) with (String "/" (String c s)).
        rewrite E. reflexivity.
Qed.

Lemma or_else_cases (x y : string) :
  (x = EmptyString /\ PyStr.or_else x y = y)
  \/ (x <> EmptyString /\ PyStr.or_else x y = x).
Proof.
  destruct x; [left | right]; split; try reflexivity. discriminate.
Qed.

(** C7. For every input string the path [run] passes on starts with a slash
    and, unless it is the root path "/", does not end with one; "mcp" and
    "/mcp/" both become "/mcp", and "/" stays "/". *)
Theorem normalized_path_shape (path : string) :
  PyStr.startswith "/" (normalized_path path) = true
  /\ (normalized_path path = "/"
      \/ PyStr.endswith "/" (normalized_path path) = false)
  /\ normalized_path "mcp" = "/mcp"
  /\ normalized_path "/mcp/" = "/mcp"
  /\ normalized_path "/" = "/".
Proof.
  split; [apply startswith_slash_normalized|].
  split; [|repeat split; reflexivity].
  unfold normalized_path, PyStr.rstrip.
  set (q := if PyStr.startswith "/" path then path else "/" ++ path).
  destruct (or_else_cases (PyStr.rstrip_by (PyStr.in_chars "/") q) "/")
    as [[_ ->] | [_ ->]].
  - left. reflexivity.
  - right. apply endswith_single_rstrip.
Qed.

(** For the network transports [run] hands the normalised path to the
    protocol runtime; the stream transport gets no path at all. *)
Lemma run_passes_normalized_path (transport host : string) (port : Z)
    (path : string) (log_level : option string) :
  exists call,
    run true transport host port path log_level = Ok call
    /\ ra_path call
       = if String.eqb transport "stdio" then None
         else Some (normalized_path path).
Proof.
  unfold run. simpl negb. cbv iota.
  destruct (String.eqb transport "stdio"); [eexists; split; reflexivity|].
  destruct (String.eqb transport "http"); [eexists; split; reflexivity|].
  destruct (String.eqb transport "streamable-http");
    [eexists; split; reflexivity|].
  destruct (String.eqb transport "sse"); eexists; split; reflexivity.
Qed.

(** ** The session client *)

Lemma alter_last {A} (f : A -> A) (l : list A) (x : A) :
  alter f (length l) (l ++ [x])%list = (l ++ [f x])%list.
Proof.
  induction l as [|a l IH]; [reflexivity|].
  simpl. f_equal. exact IH.
Qed.

Section ClientProofs.

Variable construct_error : constructor_check.
Variable status_error_str : Response -> string.
Variable str_compound : json -> string.

(** [get_authenticated_client] in one equation. *)
Lemma get_authenticated_client_eq (st : State) :
  get_authenticated_client construct_error str_compound st
  = if truthy (_token (self st)) then
      match _client (self st) with
      | Some c => (Ok c, st)
      | None =>
          match
            construct_error (base_url (self st)) (verify_tls (self st))
              (timeout (self st))
              (auth_headers str_compound (_token (self st)))
          with
          | Some e => (Raise e, st)
          | None =>
              (Ok (length (store st)),
               mkState (with_client (self st) (Some (length (store st))))
                 (store st ++ [shared_client str_compound (self st)])%list)
          end
      end
    else
      (Raise (RuntimeError "Not authenticated. Call authenticate() first."),
       st).
Proof.
  unfold get_authenticated_client, bind, get_self, AsyncClient_new.
  destruct (truthy (_token (self st))); simpl; [|reflexivity].
  destruct (_client (self st)); [reflexivity|].
  destruct (construct_error _ _ _ _); reflexivity.
Qed.

(** ... and when a token is stored and the shared client is held or can be
    built, the call returns. *)
Lemma get_authenticated_client_ready (st : State) :
  ready construct_error str_compound st = true ->
  truthy (_token (self st)) = true
  /\ get_authenticated_client construct_error str_compound st
     = match _client (self st) with
       | Some c => (Ok c, st)
       | None =>
           (Ok (length (store st)),
            mkState (with_client (self st) (Some (length (store st))))
              (store st ++ [shared_client str_compound (self st)])%list)
       end.
Proof.
  unfold ready, obtainable. intros H. apply andb_true_iff in H.
  destruct H as [Ht Ho]. split; [exact Ht|].
  rewrite get_authenticated_client_eq, Ht.
  destruct (_client (self st)); [reflexivity|].
  destruct (construct_error _ _ _ _); [discriminate Ho | reflexivity].
Qed.

(** [close] in one equation. *)
Lemma close_eq (st : State) :
  close st
  = (Ok tt,
     match _client (self st) with
     | Some c =>
         mkState (with_client (self st) None)
           (alter mark_closed c (store st))
     | None => st
     end).
Proof.
  unfold close, bind, get_self.
  destruct (_client (self st)); reflexivity.
Qed.

(** [authenticate] when the constructor refuses the login client: its
    exception is the caller's, and nothing has happened. *)
Lemma authenticate_unbuilt (up : Upstream) (username password : string)
    (duration_ms : Z) (login_path : string) (st : State) :
  login_constructible construct_error (self st) = false ->
  exists e,
    construct_error (base_url (self st)) (verify_tls (self st))
      (timeout (self st)) login_headers = Some e
    /\ authenticate construct_error status_error_str up username password
         duration_ms login_path st
       = (Raise e, st).
Proof.
  intros H. unfold login_constructible in H.
  unfold authenticate, bind, get_self, AsyncClient_new.
  destruct (construct_error _ _ _ _) as [e|]; [|discriminate H].
  exists e. split; reflexivity.
Qed.

(** [authenticate], once the login client is built and the platform's
    answer is known to be a response: a non-2xx status, a body that is not
    JSON, a body that is not an object, an object with a false token, an
    object with a true token. *)
Lemma authenticate_response (up : Upstream) (username password : string)
    (duration_ms : Z) (login_path : string) (st : State) (r : Response) :
  login_constructible construct_error (self st) = true ->
  on_post up login_path (login_payload username password duration_ms)
  = Ok r ->
  let st' := mkState (self st) (store st ++ [login_client (self st)])%list in
  authenticate construct_error status_error_str up username password
    duration_ms login_path st
  = if is_success r then
      match parsed r with
      | Raise m => (Raise (JSONDecodeError m), st')
      | Ok (JDict d) =>
          let token := default JNull (PyDict.lookup "access_token" d) in
          if truthy token then
            (Ok token,
             mkState (with_token (self st) token) (store st'))
          else
            (Raise
               (RuntimeError
                  "Authentication response did not include 'access_token'."),
             st')
      | Ok v =>
          (Raise
             (AttributeError
                ("'" ++ type_name v ++ "' object has no attribute 'get'")),
           st')
      end
    else
      (Raise
         (RuntimeError
            ("Authentication failed with status "
             ++ PyStr.of_int (status_code r) ++ ": "
             ++ PyStr.or_else (PyStr.strip (text r)) (status_error_str r))),
       st').
Proof.
  intros Hc Hpost st'. subst st'. unfold login_constructible in Hc.
  unfold authenticate, bind, get_self, AsyncClient_new, try_finally,
    try_except, client_post, await, raise_for_status, response_json,
    method_get, aclose, raise, ret, set_token.
  destruct (construct_error _ _ _ _); [discriminate Hc|].
  cbn [self store fst snd]. rewrite Hpost.
  destruct (is_success r); cbn [self store fst snd exn_str].
  - destruct (parsed r) as [data|m]; cbn [self store fst snd].
    + destruct data; cbn [self store fst snd]; rewrite ?alter_last;
        try reflexivity.
      destruct (truthy (default JNull (PyDict.lookup "access_token" fields)));
        cbn [self store fst snd negb]; rewrite ?alter_last; reflexivity.
    + rewrite alter_last. reflexivity.
  - rewrite alter_last. reflexivity.
Qed.

(** [authenticate], once the login client is built and the request is known
    to have raised. *)
Lemma authenticate_raised (up : Upstream) (username password : string)
    (duration_ms : Z) (login_path : string) (st : State) (e : exn) :
  login_constructible construct_error (self st) = true ->
  on_post up login_path (login_payload username password duration_ms)
  = Raise e ->
  authenticate construct_error status_error_str up username password
    duration_ms login_path st
  = (Raise
       match e with
       | HTTPStatusError r m =>
           RuntimeError
             ("Authentication failed with status "
              ++ PyStr.of_int (status_code r) ++ ": "
              ++ PyStr.or_else (PyStr.strip (text r)) m)
       | HTTPError m => RuntimeError ("Authentication request failed: " ++ m)
       | _ => e
       end,
     mkState (self st) (store st ++ [login_client (self st)])%list).
Proof.
  intros Hc Hpost. unfold login_constructible in Hc.
  unfold authenticate, bind, get_self, AsyncClient_new, try_finally,
    try_except, client_post, await, aclose, raise.
  destruct (construct_error _ _ _ _); [discriminate Hc|].
  cbn [self store fst snd]. rewrite Hpost.
  destruct e; cbn [self store fst snd exn_str]; rewrite alter_last;
    reflexivity.
Qed.

(** What [authenticate] does to the state, whatever the constructor and the
    platform do: when the login client is built it is the one object added
    to the store, closed; the token is written on success only. *)
Lemma authenticate_effect (up : Upstream) (username password : string)
    (duration_ms : Z) (login_path : string) (st : State) :
  let out :=
    authenticate construct_error status_error_str up username password
      duration_ms login_path st in
  store (snd out)
  = (if login_constructible construct_error (self st)
     then (store st ++ [login_client (self st)])%list
     else store st)
  /\ match fst out with
     | Ok tok =>
         login_constructible construct_error (self st) = true
         /\ truthy tok = true
         /\ self (snd out) = with_token (self st) tok
     | Raise _ => self (snd out) = self st
     end.
Proof.
  cbv zeta.
  destruct (login_constructible construct_error (self st)) eqn:Hc.
  2:{ destruct (authenticate_unbuilt up username password duration_ms
                  login_path st Hc) as (e & _ & ->).
      split; reflexivity. }
  destruct (on_post up login_path
              (login_payload username password duration_ms))
    as [r|e] eqn:Hpost.
  - rewrite (authenticate_response _ _ _ _ _ _ _ Hc Hpost). cbv zeta.
    destruct (is_success r); [|split; reflexivity].
    destruct (parsed r) as [data|m]; [|split; reflexivity].
    destruct data; try (split; reflexivity).
    destruct (truthy (default JNull (PyDict.lookup "access_token" fields)))
      eqn:Ht; repeat split; try reflexivity. exact Ht.
  - rewrite (authenticate_raised _ _ _ _ _ _ _ Hc Hpost).
    split; reflexivity.
Qed.

Lemma lookup_kept_by_login (me : CobaltStrikeClient) (l : list AsyncClient)
    (r : ref) (a : AsyncClient) :
  l !! r = Some a ->
  (if login_constructible construct_error me
   then (l ++ [login_client me])%list else l) !! r = Some a.
Proof.
  intros H. destruct (login_constructible construct_error me);
    [apply lookup_app_l_Some|]; exact H.
Qed.

Local Abbreviation authenticate :=
  (authenticate construct_error status_error_str).
Local Abbreviation get_authenticated_client :=
  (get_authenticated_client construct_error str_compound).
Local Abbreviation session :=
  (session construct_error status_error_str str_compound).
Local Abbreviation after_login :=
  (after_login construct_error status_error_str str_compound).
Local Abbreviation ready := (ready construct_error str_compound).
Local Abbreviation obtainable := (obtainable construct_error str_compound).
Local Abbreviation login_constructible :=
  (login_constructible construct_error).
Local Abbreviation session_ok := (session_ok construct_error).

(** Every state of a session satisfies [session_ok]. *)
Lemma session_invariant b v t o st :
  session b v t o st -> session_ok b v t o st.
Proof.
  induction 1 as [objs
                 | up u p d lp o st tok st' _ IH Hauth
                 | up u p d lp o st e st' _ IH Hauth
                 | o st _ IH
                 | o st _ IH]; unfold session_ok in *.
  - repeat split; try reflexivity; intros; discriminate.
  - destruct IH as (Hb & Hv & Ht & _ & _ & Hc).
    pose proof (authenticate_effect up u p d lp st) as [Hstore Hself].
    cbv zeta in Hstore, Hself. rewrite Hauth in Hstore, Hself.
    cbn [fst snd] in Hstore, Hself. destruct Hself as (_ & Htok & Hself).
    rewrite Hself, Hstore. repeat split; cbn; try assumption.
    + intros tok' [= <-]. exact Htok.
    + intros r Hr. destruct (Hc r Hr) as (h & Hh & Hok). exists h.
      split; [apply lookup_kept_by_login; exact Hh | exact Hok].
  - destruct IH as (Hb & Hv & Ht & Htk & Hot & Hc).
    pose proof (authenticate_effect up u p d lp st) as [Hstore Hself].
    cbv zeta in Hstore, Hself. rewrite Hauth in Hstore, Hself.
    cbn [fst snd] in Hstore, Hself.
    rewrite Hself, Hstore. repeat split; try assumption.
    intros r Hr. destruct (Hc r Hr) as (h & Hh & Hok). exists h.
    split; [apply lookup_kept_by_login; exact Hh | exact Hok].
  - destruct IH as (Hb & Hv & Ht & Htk & Hot & Hc).
    rewrite get_authenticated_client_eq.
    destruct (truthy (_token (self st)));
      [|repeat split; assumption].
    destruct (_client (self st)) as [c|] eqn:Ec; cbn [snd].
    { rewrite Ec. repeat split; assumption. }
    destruct (construct_error _ _ _ _) eqn:Eok; cbn [snd].
    { rewrite Ec. repeat split; assumption. }
    repeat split; cbn; try assumption.
    intros r [= <-]. exists (auth_headers str_compound (_token (self st))).
    rewrite lookup_app_r, Nat.sub_diag by lia.
    rewrite <- Hb, <- Hv, <- Ht. split; [reflexivity | exact Eok].
  - destruct IH as (Hb & Hv & Ht & Htk & Hot & Hc).
    rewrite close_eq. cbn [snd].
    destruct (_client (self st)) as [c|] eqn:Ec.
    + repeat split; cbn; try assumption. intros; discriminate.
    + rewrite Ec. repeat split; assumption.
Qed.

(** In a session with a successful login, the shared client can be handed
    out exactly when one is held or the constructor accepts its arguments;
    then the session is [ready]. *)
Lemma session_ready b v t tok st :
  session b v t (Some tok) st ->
  obtainable (self st) = true ->
  ready st = true.
Proof.
  intros Hs Ho. destruct (session_invariant _ _ _ _ _ Hs)
    as (_ & _ & _ & Htk & Hot & _).
  unfold ready. rewrite Htk. cbn [default from_option id].
  rewrite (Hot tok eq_refl). exact Ho.
Qed.

(** What [after_login] keeps: the state is one of a session whose last
    login returned the token, and the shared client, when one is held, was
    built from that token. *)
Lemma after_login_invariant b v t tok st :
  after_login b v t tok st ->
  session b v t (Some tok) st
  /\ forall r,
      _client (self st) = Some r ->
      store st !! r
      = Some (mkAsyncClient (PyStr.rstrip "/" b) v t
                (auth_headers str_compound tok) false).
Proof.
  induction 1 as [up u p d lp o st st' Hs Hheld Hauth
                 | up u p d lp st e st' _ [IHs IHc] Hauth
                 | st _ [IHs IHc]
                 | st _ [IHs IHc]].
  - split; [eapply session_login; eassumption|].
    destruct (session_invariant _ _ _ _ _ Hs) as (_ & _ & _ & _ & _ & Hc).
    pose proof (authenticate_effect up u p d lp st) as [Hstore Hself].
    cbv zeta in Hstore, Hself. rewrite Hauth in Hstore, Hself.
    cbn [fst snd] in Hstore, Hself. destruct Hself as (_ & _ & Hself).
    rewrite Hself, Hstore. cbn [_client with_token].
    intros r Hr. destruct (Hc r Hr) as (h & Hh & _).
    apply lookup_kept_by_login.
    rewrite Hh. rewrite <- (Hheld r _ Hr Hh). reflexivity.
  - split; [eapply session_login_failed; eassumption|].
    pose proof (authenticate_effect up u p d lp st) as [Hstore Hself].
    cbv zeta in Hstore, Hself. rewrite Hauth in Hstore, Hself.
    cbn [fst snd] in Hstore, Hself. rewrite Hself, Hstore.
    intros r Hr. apply lookup_kept_by_login, IHc, Hr.
  - split; [apply session_get; exact IHs|].
    destruct (session_invariant _ _ _ _ _ IHs)
      as (Hb & Hv & Ht & Htk & _ & _).
    rewrite get_authenticated_client_eq.
    destruct (truthy (_token (self st))); [|exact IHc].
    destruct (_client (self st)) as [c|] eqn:Ec; cbn [snd].
    { rewrite Ec. exact IHc. }
    destruct (construct_error _ _ _ _); cbn [snd].
    { rewrite Ec. intros; discriminate. }
    cbn. intros r [= <-].
    rewrite lookup_app_r, Nat.sub_diag by lia.
    cbn. unfold shared_client. rewrite Hb, Hv, Ht, Htk. reflexivity.
  - split; [apply session_close; exact IHs|].
    rewrite close_eq. cbn [snd].
    destruct (_client (self st)) as [c|] eqn:Ec.
    + cbn. intros; discriminate.
    + rewrite Ec. intros; discriminate.
Qed.

(** C2. A login whose request was sent (the login client was built) and
    answered with a status outside 200..299 makes [authenticate] raise an
    error whose message carries the status and the stripped body text, or
    httpx's own message when that text is empty. The client's attributes
    are left as they were, so a client that held no token still holds none
    and [get_authenticated_client] keeps refusing. *)
Theorem authenticate_rejected (up : Upstream) (username password : string)
    (duration_ms : Z) (login_path : string) (st : State) (r : Response) :
  login_constructible (self st) = true ->
  on_post up login_path (login_payload username password duration_ms)
  = Ok r ->
  is_success r = false ->
  exists st',
    authenticate up username password duration_ms login_path st
    = (Raise
         (RuntimeError
            ("Authentication failed with status "
             ++ PyStr.of_int (status_code r) ++ ": "
             ++ PyStr.or_else (PyStr.strip (text r)) (status_error_str r))),
       st')
    /\ self st' = self st
    /\ (_token (self st) = JNull ->
        _token (self st') = JNull
        /\ get_authenticated_client st'
           = (Raise
                (RuntimeError "Not authenticated. Call authenticate() first."),
              st')).
Proof.
  intros Hc Hpost Hfail.
  rewrite (authenticate_response _ _ _ _ _ _ _ Hc Hpost). cbv zeta.
  rewrite Hfail. eexists. split; [reflexivity|]. split; [reflexivity|].
  intros Hnone. cbn [self]. split; [exact Hnone|].
  rewrite get_authenticated_client_eq. cbn [self]. rewrite Hnone.
  reflexivity.
Qed.

(** C9. A 2xx login response (to a request that was sent: the login client
    was built) whose [access_token] field is present but is a false value
    (empty string, null, false, zero, empty list or object) makes
    [authenticate] raise the missing-token error, and the client's
    attributes, the stored token among them, are left as they were. *)
Theorem authenticate_falsy_token (up : Upstream) (username password : string)
    (duration_ms : Z) (login_path : string) (st : State) (r : Response)
    (d : pydict) (v : json) :
  login_constructible (self st) = true ->
  on_post up login_path (login_payload username password duration_ms)
  = Ok r ->
  is_success r = true ->
  parsed r = Ok (JDict d) ->
  PyDict.lookup "access_token" d = Some v ->
  truthy v = false ->
  exists st',
    authenticate up username password duration_ms login_path st
    = (Raise
         (RuntimeError
            "Authentication response did not include 'access_token'."),
       st')
    /\ self st' = self st.
Proof.
  intros Hc Hpost Hok Hparsed Hfield Hfalsy.
  rewrite (authenticate_response _ _ _ _ _ _ _ Hc Hpost). cbv zeta.
  rewrite Hok, Hparsed, Hfield. cbn [default from_option id]. rewrite Hfalsy.
  eexists. split; reflexivity.
Qed.

(** The values the token check rejects are exactly these. *)
Lemma truthy_false_iff (v : json) :
  truthy v = false
  <-> v = JNull \/ v = JBool false \/ v = JInt 0 \/ v = JString ""
      \/ v = JList [] \/ v = JDict []
      \/ exists s, v = JFloat (S754_zero s).
Proof.
  split.
  - destruct v as [|[]|n|f|s|l|d]; cbn; intros H; try discriminate; eauto 10.
    + apply negb_false_iff, Z.eqb_eq in H. subst. eauto 10.
    + destruct f; try discriminate. eauto 10.
    + destruct s; [eauto 10 | discriminate].
    + destruct l; [eauto 10 | discriminate].
    + destruct d; [eauto 10 | discriminate].
  - intros [->|[->|[->|[->|[->|[->|[s ->]]]]]]]; reflexivity.
Qed.

(** C3, as the code has it. On a client whose login has succeeded and
    whose shared client is held or can be built (the constructor accepts
    its arguments), two calls of [get_authenticated_client] in a row return
    the same object, and the second call leaves the whole state, the object
    store included, as the first one left it: nothing is constructed
    twice. *)
Theorem get_authenticated_client_twice (b : string) (v : bool)
    (t : spec_float) (tok : json) (st : State) :
  session b v t (Some tok) st ->
  obtainable (self st) = true ->
  exists r st',
    get_authenticated_client st = (Ok r, st')
    /\ get_authenticated_client st' = (Ok r, st')
    /\ _client (self st') = Some r
    /\ is_Some (store st' !! r).
Proof.
  intros Hs Ho. destruct (session_invariant _ _ _ _ _ Hs)
    as (_ & _ & _ & _ & _ & Hc).
  destruct (get_authenticated_client_ready st (session_ready _ _ _ _ _ Hs Ho))
    as [Ht ->].
  destruct (_client (self st)) as [c|] eqn:Ec.
  - exists c, st. rewrite get_authenticated_client_eq, Ht, Ec.
    destruct (Hc c eq_refl) as (h & Hh & _). rewrite Hh. eauto.
  - eexists _, _. split; [reflexivity|].
    rewrite get_authenticated_client_eq. cbn [self with_client _token _client].
    rewrite Ht. repeat split.
    cbn [store]. rewrite lookup_app_r, Nat.sub_diag by lia. eauto.
Qed.

(** Whenever a call of [get_authenticated_client] returns a client, the
    next call returns the same one and changes nothing. *)
Lemma get_authenticated_client_again (st st' : State) (r : ref) :
  get_authenticated_client st = (Ok r, st') ->
  get_authenticated_client st' = (Ok r, st').
Proof.
  rewrite (get_authenticated_client_eq st).
  destruct (truthy (_token (self st))) eqn:Ht; [|discriminate].
  destruct (_client (self st)) as [c|] eqn:Ec.
  - intros [= <- <-]. rewrite get_authenticated_client_eq, Ht, Ec.
    reflexivity.
  - destruct (construct_error _ _ _ _); [discriminate|].
    intros [= <- <-]. rewrite get_authenticated_client_eq.
    cbn [self with_client _token _client]. rewrite Ht. reflexivity.
Qed.

(** C4, as the code has it. After a successful login that returned a token,
    made while no shared client built from another token was held, every
    call of [get_authenticated_client] up to the next successful login,
    whether it constructs the client or hands out the one held, returns,
    provided a client is held or the constructor accepts its arguments; the
    client it returns carries [Authorization] equal to "Bearer " followed
    by the token, [Accept: application/json], and the base address, TLS
    flag and timeout given to the constructor of the Session Client. *)
Theorem client_carries_login_token (b : string) (v : bool) (t : spec_float)
    (tok : json) (st : State) :
  after_login b v t tok st ->
  obtainable (self st) = true ->
  exists r st' a,
    get_authenticated_client st = (Ok r, st')
    /\ store st' !! r = Some a
    /\ ac_headers a !! "Authorization"
       = Some ("Bearer " ++ format_value str_compound tok)
    /\ ac_headers a !! "Accept" = Some "application/json"
    /\ ac_base_url a = PyStr.rstrip "/" b
    /\ ac_verify a = v
    /\ ac_timeout a = t
    /\ ac_closed a = false.
Proof.
  intros Ha Ho. destruct (after_login_invariant _ _ _ _ _ Ha) as [Hs Hheld].
  destruct (session_invariant _ _ _ _ _ Hs) as (Hb & Hv & Ht & Htk & _ & _).
  destruct (get_authenticated_client_ready st (session_ready _ _ _ _ _ Hs Ho))
    as [_ ->].
  destruct (_client (self st)) as [c|] eqn:Ec.
  - eexists _, _, _. split; [reflexivity|].
    split; [apply Hheld; reflexivity|]. repeat split.
  - eexists _, _, _. split; [reflexivity|].
    cbn [store]. rewrite lookup_app_r, Nat.sub_diag by lia.
    split; [reflexivity|].
    cbn [ac_headers ac_base_url ac_verify ac_timeout ac_closed shared_client].
    rewrite Htk. cbn [default from_option id].
    repeat split; assumption.
Qed.

(** C8. In every state, two calls of [close] in a row both return normally;
    after each of them the client reference is [None], and the stored token
    is the one held before the first call. *)
Theorem close_twice (st : State) :
  let st1 := snd (close st) in
  let st2 := snd (close st1) in
  fst (close st) = Ok tt
  /\ fst (close st1) = Ok tt
  /\ _client (self st1) = None
  /\ _client (self st2) = None
  /\ _token (self st1) = _token (self st)
  /\ _token (self st2) = _token (self st)
  /\ st2 = st1.
Proof.
  cbv zeta. rewrite close_eq. cbn [fst snd].
  destruct (_client (self st)) as [c|] eqn:Ec.
  - rewrite close_eq. cbn. repeat split.
  - rewrite close_eq, Ec. cbn [fst snd]. rewrite Ec. repeat split.
Qed.

(** C10, as the code has it. After a successful login that returned a
    token, made while no shared client built from another token was held,
    [close] followed by [get_authenticated_client] does not raise, provided
    a shared client was held at the close or the constructor accepts its
    arguments. The call constructs an object that was not in the store
    before, so it is not the one [close] released (which stays in the
    store, closed); the new object is open and carries the token of the
    login and the address, TLS flag and timeout of the Session Client, and
    so did the released one. *)
Theorem client_after_close_is_fresh (b : string) (v : bool) (t : spec_float)
    (tok : json) (st : State) :
  after_login b v t tok st ->
  obtainable (self st) = true ->
  let st1 := snd (close st) in
  let fresh :=
    mkAsyncClient (PyStr.rstrip "/" b) v t (auth_headers str_compound tok)
      false in
  exists r st2,
    fst (close st) = Ok tt
    /\ get_authenticated_client st1 = (Ok r, st2)
    /\ _client (self st2) = Some r
    /\ store st1 !! r = None
    /\ store st2 !! r = Some fresh
    /\ (forall r0, _client (self st) = Some r0 ->
        r <> r0
        /\ store st !! r0 = Some fresh
        /\ store st2 !! r0 = Some (mark_closed fresh)).
Proof.
  intros Ha Ho. cbv zeta.
  destruct (after_login_invariant _ _ _ _ _ Ha) as [Hs Hheld].
  pose proof (session_invariant _ _ _ _ _ (session_close _ _ _ _ _ _ _ _ Hs))
    as (Hb & Hv & Ht & Htk & Hot & _).
  destruct (session_invariant _ _ _ _ _ Hs)
    as (Hb0 & Hv0 & Ht0 & Htk0 & _ & Hc).
  assert (Hnone : _client (self (snd (close st))) = None).
  { rewrite close_eq. cbn [snd]. destruct (_client (self st)) eqn:E;
      [reflexivity | exact E]. }
  assert (Hok : construct_error (PyStr.rstrip "/" b) v t
                  (auth_headers str_compound tok) = None).
  { destruct (_client (self st)) as [c|] eqn:Ec.
    - destruct (Hc c eq_refl) as (h & Hh & Hacc).
      rewrite (Hheld c eq_refl) in Hh. injection Hh as <-. exact Hacc.
    - unfold obtainable in Ho. rewrite Ec, Hb0, Hv0, Ht0, Htk0 in Ho.
      cbn [default from_option id] in Ho.
      destruct (construct_error _ _ _ _); [discriminate Ho | reflexivity]. }
  rewrite get_authenticated_client_eq, Hnone, Htk, Hb, Hv, Ht.
  cbn [default from_option id]. rewrite (Hot tok eq_refl), Hok.
  eexists _, _. split; [rewrite close_eq; reflexivity|].
  split; [reflexivity|]. split; [reflexivity|].
  split; [apply lookup_ge_None_2; lia|].
  split.
  { cbn [store]. rewrite lookup_app_r, Nat.sub_diag by lia.
    cbn [lookup list_lookup]. unfold shared_client.
    rewrite Hb, Hv, Ht, Htk. reflexivity. }
  intros r0 Hr0. pose proof (Hheld r0 Hr0) as Hh.
  pose proof (lookup_lt_Some _ _ _ Hh) as Hlt.
  assert (Hst1 : store (snd (close st)) = alter mark_closed r0 (store st)).
  { rewrite close_eq, Hr0. reflexivity. }
  split.
  { rewrite Hst1, length_alter. lia. }
  split; [exact Hh|].
  cbn [store]. rewrite lookup_app_l by (rewrite Hst1, length_alter; lia).
  rewrite Hst1, list_lookup_alter_eq, Hh. reflexivity.
Qed.

End ClientProofs.

(** ** The data views *)

Section ResourceProofs.

Variable construct_error : constructor_check.
Variable str_compound : json -> string.

(** With a token in place and the shared client held or buildable, the
    client is handed out, and the attributes other than the client
    reference stay as they are. *)
Lemma get_authenticated_client_ok (st : State) :
  ready construct_error str_compound st = true ->
  exists r st',
    get_authenticated_client construct_error str_compound st = (Ok r, st')
    /\ base_url (self st') = base_url (self st).
Proof.
  intros Hr.
  destruct (get_authenticated_client_ready construct_error str_compound st Hr)
    as [_ ->].
  destruct (_client (self st)); eexists _, _; split; reflexivity.
Qed.

(** One turn of the dashboard loop always assigns [stats[name]], with a
    value that depends on the outcome of that endpoint only, and never
    raises. *)
Lemma dashboard_query_eq (up : Upstream) (client : ref)
    (name endpoint : string) (stats : pydict) (st : State) :
  dashboard_query up client name endpoint stats st
  = (Ok (PyDict.set name (dashboard_entry (on_get up endpoint)) stats), st).
Proof.
  unfold dashboard_query, try_except, bind, client_get, await, response_json,
    dashboard_entry, ret, raise.
  destruct (on_get up endpoint) as [r|e]; [|reflexivity].
  destruct (status_code r =? 200)%Z; [|reflexivity].
  destruct (parsed r) as [data|m]; [|reflexivity].
  destruct data; reflexivity.
Qed.

Lemma dashboard_loop_eq (up : Upstream) (client : ref)
    (items : list (string * string)) (stats : pydict) (st : State) :
  dashboard_loop up client items stats st
  = (Ok (fold_left
           (fun acc item =>
              PyDict.set (fst item) (dashboard_entry (on_get up (snd item)))
                acc)
           items stats),
     st).
Proof.
  revert stats. induction items as [|[name endpoint] rest IH]; intros stats.
  - reflexivity.
  - cbn [dashboard_loop fold_left fst snd]. unfold bind.
    rewrite dashboard_query_eq. apply IH.
Qed.

(** C1, as the code has it. On a client that holds a token and whose shared
    client is held or can be built, whatever each of the three endpoints
    does, the dashboard view returns one success envelope: the header and
    one entry per endpoint, each entry computed from that endpoint's outcome
    alone by [dashboard_entry] (status 200 and a list: its length and
    "available"; status 200 and another JSON value: "1" and "available";
    any other status, other 2xx included: "unavailable" with the status as
    [error_code]; a raised exception or a body that does not parse: "error"
    with the message). *)
Theorem dashboard_reports_each_endpoint (up : Upstream) (st : State) :
  ready construct_error str_compound st = true ->
  fst (dashboard_stats_resource construct_error str_compound up st)
  = Ok (JDict
          [("dashboard", dashboard_header);
           ("beacons", dashboard_entry (on_get up "/api/v1/beacons"));
           ("listeners", dashboard_entry (on_get up "/api/v1/listeners"));
           ("tasks", dashboard_entry (on_get up "/api/v1/tasks"))]).
Proof.
  intros Ht. destruct (get_authenticated_client_ok st Ht) as (r & st' & Hg & _).
  unfold dashboard_stats_resource, try_except, bind. rewrite Hg.
  rewrite dashboard_loop_eq. reflexivity.
Qed.

(** Without a token the same view answers with the error envelope. *)
Lemma dashboard_unauthenticated (up : Upstream) (st : State) :
  truthy (_token (self st)) = false ->
  fst (dashboard_stats_resource construct_error str_compound up st)
  = Ok (exception_envelope
          (RuntimeError "Not authenticated. Call authenticate() first.")
          "Error while fetching dashboard statistics").
Proof.
  intros Ht. unfold dashboard_stats_resource, try_except, bind.
  rewrite get_authenticated_client_eq, Ht. reflexivity.
Qed.

(** The literal [server_info] has no [system_information] field. *)
Lemma server_info_literal_omits (me : CobaltStrikeClient) (vd : json) :
  exists d,
    PyDict.lookup "cobalt_strike" (server_info_literal me vd) = Some (JDict d)
    /\ PyDict.lookup "system_information" d = None.
Proof. eexists. split; reflexivity. Qed.

(** C5, as the code has it. On a client that holds a token, whose shared
    client is held or can be built and whose first request was answered,
    let the system-information request do anything but answer 200. If it
    answers with another status, the view is the full success envelope
    without the [system_information] field; if it raises, the exception is
    caught at the boundary of the view, which answers with the error
    envelope. *)
Theorem server_info_secondary_unavailable (up : Upstream) (st : State)
    (r1 : Response) (o2 : result Response) :
  ready construct_error str_compound st = true ->
  on_get up "/api/v1/config/localip" = Ok r1 ->
  on_get up "/api/v1/config/systeminformation" = o2 ->
  match o2 with Ok r2 => status_code r2 <> 200%Z | Raise _ => True end ->
  fst (server_info_resource construct_error str_compound up st)
  = Ok match o2 with
       | Ok _ => JDict (server_info_literal (self st) (version_data r1))
       | Raise e =>
           exception_envelope e "Error while fetching server information"
       end.
Proof.
  intros Ht H1 H2 Hne.
  destruct (get_authenticated_client_ok st Ht) as (r & st' & Hg & Hb).
  unfold server_info_resource, try_except, bind, client_get, await,
    get_self, ret.
  rewrite Hg, H1, H2. destruct o2 as [r2|e]; [|reflexivity].
  apply Z.eqb_neq in Hne. rewrite Hne. cbn [fst].
  unfold server_info_literal. rewrite Hb. reflexivity.
Qed.

(** When the view has its client and both requests are answered, the
    second with status 200, the body text of the second is added under
    [cobalt_strike]. *)
Lemma server_info_enriched (up : Upstream) (st : State) (r1 r2 : Response) :
  ready construct_error str_compound st = true ->
  on_get up "/api/v1/config/localip" = Ok r1 ->
  on_get up "/api/v1/config/systeminformation" = Ok r2 ->
  status_code r2 = 200%Z ->
  exists env d,
    fst (server_info_resource construct_error str_compound up st)
    = Ok (JDict env)
    /\ PyDict.lookup "cobalt_strike" env = Some (JDict d)
    /\ PyDict.lookup "system_information" d = Some (JString (text r2)).
Proof.
  intros Ht H1 H2 H200.
  destruct (get_authenticated_client_ok st Ht) as (r & st' & Hg & Hb).
  unfold server_info_resource, try_except, bind, client_get, await,
    get_self, ret.
  rewrite Hg, H1, H2, H200. cbn.
  eexists _, _. repeat split.
Qed.

(** C6, as the code has it. On a client that holds a token and whose shared
    client is held or can be built, when the tasks endpoint answers with
    status exactly 200 and a JSON list of [n] items: for [n >= 50] the view
    returns the first 50 items, exactly 50 of them, with
    [total_tasks_shown] 50 and [total_tasks_available] [n]; for [n < 50] it
    returns all the items with both counts equal to [n]. *)
Theorem recent_activity_caps_at_50 (up : Upstream) (st : State)
    (r : Response) (items : list json) :
  ready construct_error str_compound st = true ->
  on_get up "/api/v1/tasks" = Ok r ->
  status_code r = 200%Z ->
  parsed r = Ok (JList items) ->
  let n := length items in
  (50 <= n ->
   fst (recent_activity_resource construct_error str_compound up st)
   = Ok (JDict [("metadata", activity_metadata 50 (Z.of_nat n));
                ("activities", JList (take 50 items))])
   /\ length (take 50 items) = 50)
  /\ (n < 50 ->
      fst (recent_activity_resource construct_error str_compound up st)
      = Ok (JDict [("metadata", activity_metadata (Z.of_nat n) (Z.of_nat n));
                   ("activities", JList items)])).
Proof.
  intros Ht Hget H200 Hparsed n.
  destruct (get_authenticated_client_ok st Ht) as (c & st' & Hg & _).
  assert (Hrun :
    fst (recent_activity_resource construct_error str_compound up st)
    = Ok (JDict [("metadata",
                  activity_metadata (Z.of_nat (length (take 50 items)))
                    (Z.of_nat n));
                 ("activities", JList (take 50 items))])).
  { unfold recent_activity_resource, try_except, bind, client_get, await,
      response_json, ret.
    rewrite Hg, Hget, H200, Hparsed. reflexivity. }
  split; intros Hn.
  - rewrite Hrun, length_take. subst n.
    replace (50 `min` length items) with 50 by lia. split; reflexivity.
  - rewrite Hrun. subst n. rewrite take_ge by lia. reflexivity.
Qed.

End ResourceProofs.

(** ** The statements at concrete inputs *)

Module SampleFacts.

Import Sample.

Abbreviation session :=
  (session construct_error status_error_str str_compound).
Abbreviation after_login :=
  (after_login construct_error status_error_str str_compound).

Lemma logged_in_session :
  session "https://teamserver:50443/" false half_minute
    (Some (JString "jwt-alice")) logged_in.
Proof.
  apply (session_login construct_error status_error_str str_compound _ _ _
           healthy "alice" "secret" 86400000 "/api/auth/login"
           None fresh (JString "jwt-alice") logged_in);
    [apply session_init | reflexivity].
Defined.

Lemma with_shared_session :
  session "https://teamserver:50443/" false half_minute
    (Some (JString "jwt-alice")) with_shared.
Proof. apply session_get, logged_in_session. Defined.

Lemma relogged_session :
  session "https://teamserver:50443/" false half_minute
    (Some (JString "jwt-bob")) relogged.
Proof.
  apply (session_login construct_error status_error_str str_compound _ _ _
           healthy "bob" "secret" 86400000 "/api/auth/login"
           (Some (JString "jwt-alice")) with_shared (JString "jwt-bob")
           relogged);
    [apply with_shared_session | reflexivity].
Defined.

Lemma logged_in_after_login :
  after_login "https://teamserver:50443/" false half_minute
    (JString "jwt-alice") logged_in.
Proof.
  apply (after_login_ok construct_error status_error_str str_compound _ _ _
           _ healthy "alice" "secret" 86400000 "/api/auth/login"
           None fresh logged_in).
  - apply session_init.
  - intros r a H. discriminate H.
  - reflexivity.
Defined.

Lemma with_shared_after_login :
  after_login "https://teamserver:50443/" false half_minute
    (JString "jwt-alice") with_shared.
Proof. apply after_login_get, logged_in_after_login. Defined.

End SampleFacts.

(** C1 fails as written: an endpoint that answers 201, a 2xx status, with a
    list of two items is reported as "unavailable" with [error_code] "201",
    not as "available" with count "2". *)
Lemma dashboard_2xx_reported_unavailable :
  on_get Sample.created_beacons "/api/v1/beacons" = Sample.list_reply 201 2
  /\ is_success (mkResponse 201 "[...]" (Ok (JList (replicate 2 JNull))))
     = true
  /\ exists d,
      fst (dashboard_stats_resource Sample.construct_error
             Sample.str_compound Sample.created_beacons Sample.logged_in)
      = Ok (JDict d)
      /\ PyDict.lookup "beacons" d
         = Some (JDict [("count", JString "0");
                        ("status", JString "unavailable");
                        ("error_code", JString "201")])
      /\ PyDict.lookup "beacons" d
         <> Some (available_entry (replicate 2 JNull)).
Proof.
  split; [reflexivity|]. split; [reflexivity|].
  eexists. split; [reflexivity|]. split; [reflexivity|]. discriminate.
Qed.

Lemma dashboard_reports_each_endpoint_witness :
  ready Sample.construct_error Sample.str_compound Sample.logged_in = true
  /\ fst (dashboard_stats_resource Sample.construct_error
            Sample.str_compound Sample.created_beacons Sample.logged_in)
     = Ok (JDict
             [("dashboard", dashboard_header);
              ("beacons",
               dashboard_entry
                 (on_get Sample.created_beacons "/api/v1/beacons"));
              ("listeners",
               dashboard_entry
                 (on_get Sample.created_beacons "/api/v1/listeners"));
              ("tasks",
               dashboard_entry
                 (on_get Sample.created_beacons "/api/v1/tasks"))]).
Proof.
  split; [reflexivity|].
  apply (dashboard_reports_each_endpoint Sample.construct_error
           Sample.str_compound Sample.created_beacons Sample.logged_in).
  reflexivity.
Defined.

Lemma authenticate_rejected_witness :
  exists st',
    Sample.login Sample.rejecting "mallory" Sample.fresh
    = (Raise
         (RuntimeError
            "Authentication failed with status 401: bad credentials"),
       st')
    /\ self st' = self Sample.fresh
    /\ (_token (self Sample.fresh) = JNull ->
        _token (self st') = JNull
        /\ get_authenticated_client Sample.construct_error
             Sample.str_compound st'
           = (Raise
                (RuntimeError "Not authenticated. Call authenticate() first."),
              st')).
Proof.
  apply (authenticate_rejected Sample.construct_error
           Sample.status_error_str Sample.str_compound
           Sample.rejecting "mallory" "secret" 86400000 "/api/auth/login"
           Sample.fresh
           (mkResponse 401 " bad credentials
" (Raise "Expecting value"))).
  - reflexivity.
  - reflexivity.
  - reflexivity.
Defined.

Lemma authenticate_falsy_token_witness :
  exists st',
    Sample.login Sample.empty_token "alice" Sample.fresh
    = (Raise
         (RuntimeError
            "Authentication response did not include 'access_token'."),
       st')
    /\ self st' = self Sample.fresh.
Proof.
  apply (authenticate_falsy_token Sample.construct_error
           Sample.status_error_str
           Sample.empty_token "alice" "secret" 86400000 "/api/auth/login"
           Sample.fresh
           (mkResponse 200 "{...}"
              (Ok (JDict [("access_token", JString "")])))
           [("access_token", JString "")] (JString ""));
    reflexivity.
Defined.

(** C3 fails as written: a login can succeed with a token that is not
    ASCII; the constructor then refuses the [Authorization] header, so
    both calls of [get_authenticated_client] raise and no client is ever
    returned or stored. *)
Lemma accented_token_never_gets_client :
  fst (Sample.login Sample.healthy Sample.accented_user Sample.fresh)
  = Ok (JString ("jwt-" ++ Sample.accented_user))
  /\ get_authenticated_client Sample.construct_error Sample.str_compound
       Sample.logged_in_accented
     = (Raise (UnicodeEncodeError "'ascii' codec can't encode character"),
        Sample.logged_in_accented)
  /\ fst (get_authenticated_client Sample.construct_error
            Sample.str_compound
            (snd (get_authenticated_client Sample.construct_error
                    Sample.str_compound Sample.logged_in_accented)))
     = Raise (UnicodeEncodeError "'ascii' codec can't encode character")
  /\ _client (self Sample.logged_in_accented) = None.
Proof. repeat split. Qed.

Lemma get_authenticated_client_twice_witness :
  exists r st',
    get_authenticated_client Sample.construct_error Sample.str_compound
      Sample.logged_in = (Ok r, st')
    /\ get_authenticated_client Sample.construct_error Sample.str_compound
         st' = (Ok r, st')
    /\ _client (self st') = Some r
    /\ is_Some (store st' !! r).
Proof.
  apply (get_authenticated_client_twice Sample.construct_error
           Sample.status_error_str
           Sample.str_compound "https://teamserver:50443/" false
           Sample.half_minute (JString "jwt-alice") Sample.logged_in).
  - apply SampleFacts.logged_in_session.
  - reflexivity.
Defined.

(** C4 fails as written: after a login as alice, a call that constructs the
    shared client, and a second successful login that returned "jwt-bob",
    [get_authenticated_client] hands out the client built before, whose
    [Authorization] is still "Bearer jwt-alice". *)
Lemma stale_client_keeps_old_token :
  fst (Sample.login Sample.healthy "bob" Sample.with_shared)
  = Ok (JString "jwt-bob")
  /\ exists r a,
      get_authenticated_client Sample.construct_error Sample.str_compound
        Sample.relogged
      = (Ok r, Sample.relogged)
      /\ store Sample.relogged !! r = Some a
      /\ ac_headers a !! "Authorization" = Some "Bearer jwt-alice"
      /\ ac_headers a !! "Authorization"
         <> Some ("Bearer " ++ format_value Sample.str_compound
                                 (JString "jwt-bob")).
Proof.
  split; [reflexivity|].
  eexists _, _. split; [reflexivity|]. split; [reflexivity|].
  split; [reflexivity|]. discriminate.
Qed.

Lemma client_carries_login_token_witness :
  _client (self Sample.with_shared) = Some 1
  /\ exists r st' a,
      get_authenticated_client Sample.construct_error Sample.str_compound
        Sample.with_shared
      = (Ok r, st')
      /\ store st' !! r = Some a
      /\ ac_headers a !! "Authorization"
         = Some ("Bearer "
                 ++ format_value Sample.str_compound (JString "jwt-alice"))
      /\ ac_headers a !! "Accept" = Some "application/json"
      /\ ac_base_url a = PyStr.rstrip "/" "https://teamserver:50443/"
      /\ ac_verify a = false
      /\ ac_timeout a = Sample.half_minute
      /\ ac_closed a = false.
Proof.
  split; [reflexivity|].
  apply (client_carries_login_token Sample.construct_error
           Sample.status_error_str
           Sample.str_compound "https://teamserver:50443/" false
           Sample.half_minute (JString "jwt-alice") Sample.with_shared).
  - apply SampleFacts.with_shared_after_login.
  - reflexivity.
Defined.

(** C5 fails as written: when the system-information request raises, the
    view answers with the error envelope, not with the success envelope. *)
Lemma server_info_secondary_raise_is_error :
  on_get Sample.sysinfo_down "/api/v1/config/systeminformation"
  = Raise (HTTPError "All connection attempts failed")
  /\ fst (server_info_resource Sample.construct_error Sample.str_compound
            Sample.sysinfo_down Sample.logged_in)
     = Ok (JDict [("error", JString "Exception occurred");
                  ("exception", JString "All connection attempts failed");
                  ("message",
                   JString "Error while fetching server information")])
  /\ fst (server_info_resource Sample.construct_error Sample.str_compound
            Sample.sysinfo_down Sample.logged_in)
     <> Ok (JDict (server_info_literal (self Sample.logged_in)
                     (version_data
                        (mkResponse 200 "[...]"
                           (Ok (JList (replicate 3 JNull))))))).
Proof.
  split; [reflexivity|]. split; [reflexivity|]. discriminate.
Qed.

Lemma server_info_secondary_unavailable_witness :
  fst (server_info_resource Sample.construct_error Sample.str_compound
         Sample.sysinfo_503 Sample.logged_in)
  = Ok (JDict (server_info_literal (self Sample.logged_in)
                 (version_data
                    (mkResponse 200 "[...]"
                       (Ok (JList (replicate 3 JNull))))))).
Proof.
  apply (server_info_secondary_unavailable Sample.construct_error
           Sample.str_compound
           Sample.sysinfo_503 Sample.logged_in
           (mkResponse 200 "[...]" (Ok (JList (replicate 3 JNull))))
           (Ok (mkResponse 503 "" (Raise "Expecting value")))).
  - reflexivity.
  - reflexivity.
  - reflexivity.
  - discriminate.
Defined.

(** C6 fails as written: a tasks answer with status 201, a 2xx status, and
    a JSON list of 120 items gives the error envelope with the status, not
    the first 50 items. *)
Lemma recent_activity_201_is_error :
  on_get (Sample.tasks_created 120) "/api/v1/tasks"
  = Ok (mkResponse 201 "[...]" (Ok (JList (replicate 120 JNull))))
  /\ is_success (mkResponse 201 "[...]" (Ok (JList (replicate 120 JNull))))
     = true
  /\ fst (recent_activity_resource Sample.construct_error
            Sample.str_compound (Sample.tasks_created 120) Sample.logged_in)
     = Ok (JDict [("error", JString "Failed to fetch activity logs");
                  ("status_code", JInt 201);
                  ("message",
                   JString "Unable to retrieve recent activity data")])
  /\ fst (recent_activity_resource Sample.construct_error
            Sample.str_compound (Sample.tasks_created 120) Sample.logged_in)
     <> Ok (JDict [("metadata", activity_metadata 50 120);
                   ("activities", JList (replicate 50 JNull))]).
Proof.
  split; [reflexivity|]. split; [reflexivity|]. split; [reflexivity|].
  discriminate.
Qed.

Lemma recent_activity_caps_at_50_witness :
  fst (recent_activity_resource Sample.construct_error Sample.str_compound
         (Sample.tasks 120) Sample.logged_in)
  = Ok (JDict [("metadata", activity_metadata 50 120);
               ("activities", JList (replicate 50 JNull))])
  /\ length (take 50 (replicate 120 JNull)) = 50.
Proof.
  apply (recent_activity_caps_at_50 Sample.construct_error
           Sample.str_compound (Sample.tasks 120)
           Sample.logged_in
           (mkResponse 200 "[...]" (Ok (JList (replicate 120 JNull))))
           (replicate 120 JNull)).
  - reflexivity.
  - reflexivity.
  - reflexivity.
  - reflexivity.
  - vm_compute. lia.
Defined.

(** C10 fails as written, twice over. After a successful login with a token
    that is not ASCII, [close] followed by [get_authenticated_client]
    raises. And after a second login made while the client of the first is
    held, the client built after [close] carries the second token while
    the one that was closed carried the first. *)
Lemma after_close_may_fail_or_differ :
  (fst (Sample.login Sample.healthy Sample.accented_user Sample.fresh)
   = Ok (JString ("jwt-" ++ Sample.accented_user))
   /\ fst (get_authenticated_client Sample.construct_error
             Sample.str_compound (snd (close Sample.logged_in_accented)))
      = Raise (UnicodeEncodeError "'ascii' codec can't encode character"))
  /\ exists r0 a0 r a st2,
      _client (self Sample.relogged) = Some r0
      /\ store Sample.relogged !! r0 = Some a0
      /\ get_authenticated_client Sample.construct_error Sample.str_compound
           (snd (close Sample.relogged)) = (Ok r, st2)
      /\ store st2 !! r = Some a
      /\ ac_headers a0 !! "Authorization" = Some "Bearer jwt-alice"
      /\ ac_headers a !! "Authorization" = Some "Bearer jwt-bob".
Proof.
  split; [split; reflexivity|].
  eexists _, _, _, _, _. repeat split.
Qed.

Lemma client_after_close_is_fresh_witness :
  exists r st2,
    fst (close Sample.with_shared) = Ok tt
    /\ get_authenticated_client Sample.construct_error Sample.str_compound
         (snd (close Sample.with_shared)) = (Ok r, st2)
    /\ _client (self st2) = Some r
    /\ store (snd (close Sample.with_shared)) !! r = None
    /\ store st2 !! r
       = Some (mkAsyncClient (PyStr.rstrip "/" "https://teamserver:50443/")
                 false Sample.half_minute
                 (auth_headers Sample.str_compound (JString "jwt-alice"))
                 false)
    /\ (forall r0, _client (self Sample.with_shared) = Some r0 ->
        r <> r0
        /\ store Sample.with_shared !! r0
           = Some (mkAsyncClient
                     (PyStr.rstrip "/" "https://teamserver:50443/") false
                     Sample.half_minute
                     (auth_headers Sample.str_compound (JString "jwt-alice"))
                     false)
        /\ store st2 !! r0
           = Some (mark_closed
                     (mkAsyncClient
                        (PyStr.rstrip "/" "https://teamserver:50443/") false
                        Sample.half_minute
                        (auth_headers Sample.str_compound
                           (JString "jwt-alice"))
                        false))).
Proof.
  apply (client_after_close_is_fresh Sample.construct_error
           Sample.status_error_str
           Sample.str_compound "https://teamserver:50443/" false
           Sample.half_minute (JString "jwt-alice") Sample.with_shared).
  - apply SampleFacts.with_shared_after_login.
  - reflexivity.
Defined.

(** * More properties of the code *)

(** ** Bind path and base address *)

Lemma rstrip_by_idem (p : ascii -> bool) (s : string) :
  PyStr.rstrip_by p (PyStr.rstrip_by p s) = PyStr.rstrip_by p s.
Proof.
  induction s as [|a s IH]; [reflexivity|].
  simpl. destruct (PyStr.rstrip_by p s) as [|b r] eqn:E.
  - destruct (p a) eqn:Ea; simpl; [reflexivity|]. rewrite Ea. reflexivity.
  - change (PyStr.rstrip_by p (String a (String b r)))
      with (match PyStr.rstrip_by p (String b r) with
            | EmptyString => if p a then EmptyString else String a EmptyString
            | String c r' => String a (String c r')
            end).
    rewrite IH. reflexivity.
Qed.

Lemma rstrip_by_fixed (c : ascii) (s : string) :
  PyStr.endswith (String c EmptyString) s = false ->
  PyStr.rstrip_by (PyStr.in_chars (String c EmptyString)) s = s.
Proof.
  induction s as [|a s IH]; [reflexivity|].
  intros H.
  change (PyStr.endswith (String c EmptyString) (String a s))
    with (String.eqb (String c EmptyString) (String a s)
          || PyStr.endswith (String c EmptyString) s) in H.
  apply orb_false_iff in H. destruct H as [Hne Hs].
  simpl. rewrite (IH Hs). destruct s as [|b s]; [|reflexivity].
  simpl in Hne. unfold PyStr.in_chars. simpl.
  rewrite Ascii.eqb_sym. destruct (Ascii.eqb c a); [discriminate|reflexivity].
Qed.

(** Normalising a bind path twice gives what normalising it once gives. *)
Theorem normalized_path_idempotent (path : string) :
  normalized_path (normalized_path path) = normalized_path path.
Proof.
  pose proof (startswith_slash_normalized path) as Hs.
  unfold normalized_path at 1. rewrite Hs.
  unfold normalized_path, PyStr.rstrip in *.
  set (q := if PyStr.startswith "/" path then path else "/" ++ path) in *.
  destruct (or_else_cases (PyStr.rstrip_by (PyStr.in_chars "/") q) "/")
    as [[_ E] | [Hne E]]; rewrite E.
  - reflexivity.
  - rewrite rstrip_by_idem.
    destruct (or_else_cases (PyStr.rstrip_by (PyStr.in_chars "/") q) "/")
      as [[H0 _] | [_ E']]; [contradiction | exact E'].
Qed.

(** The paths [run] leaves as they are are exactly those in normal form:
    a leading slash and, the root aside, no trailing slash. *)
Theorem normalized_path_fixed_points (path : string) :
  normalized_path path = path
  <-> PyStr.startswith "/" path = true
      /\ (path = "/" \/ PyStr.endswith "/" path = false).
Proof.
  split.
  - intros E. split.
    + rewrite <- E. apply startswith_slash_normalized.
    + rewrite <- E. unfold normalized_path, PyStr.rstrip.
      set (q := if PyStr.startswith "/" path then path else "/" ++ path).
      destruct (or_else_cases (PyStr.rstrip_by (PyStr.in_chars "/") q) "/")
        as [[_ ->] | [_ ->]]; [left; reflexivity|].
      right. apply endswith_single_rstrip.
  - intros [Hs [-> | He]]; [reflexivity|].
    unfold normalized_path, PyStr.rstrip. rewrite Hs.
    rewrite (rstrip_by_fixed "/" path He).
    destruct path; [discriminate Hs | reflexivity].
Qed.

Lemma normalized_path_fixed_points_witness :
  normalized_path "/api/mcp" = "/api/mcp"
  <-> PyStr.startswith "/" "/api/mcp" = true
      /\ ("/api/mcp" = "/" \/ PyStr.endswith "/" "/api/mcp" = false).
Proof. apply (normalized_path_fixed_points "/api/mcp"). Defined.

(** Whatever base URL the constructor is given, the stored one does not end
    with a slash, so joining it with a path that starts with one never
    doubles the slash. *)
Theorem init_base_url_no_trailing_slash (b : string) (v : bool)
    (t : spec_float) :
  PyStr.endswith "/" (base_url (init b v t)) = false
  /\ base_url (init (base_url (init b v t)) v t) = base_url (init b v t).
Proof.
  split.
  - apply endswith_single_rstrip.
  - apply rstrip_by_idem.
Qed.

(** [run] hands the protocol runtime one of its four transports, whatever
    string it is given: an unknown one is served as "http". *)
Theorem run_dispatches_known_transport (transport host : string) (port : Z)
    (path : string) (log_level : option string) :
  exists call,
    run true transport host port path log_level = Ok call
    /\ In (ra_transport call) known_transports
    /\ (In transport known_transports -> ra_transport call = transport)
    /\ (~ In transport known_transports -> ra_transport call = "http").
Proof.
  unfold run, known_transports. cbn [negb].
  destruct (String.eqb transport "stdio") eqn:E1.
  { apply String.eqb_eq in E1. subst. eexists. split; [reflexivity|].
    cbn. intuition. }
  destruct (String.eqb transport "http") eqn:E2.
  { apply String.eqb_eq in E2. subst. eexists. split; [reflexivity|].
    cbn. intuition. }
  destruct (String.eqb transport "streamable-http") eqn:E3.
  { apply String.eqb_eq in E3. subst. eexists. split; [reflexivity|].
    cbn. intuition. }
  destruct (String.eqb transport "sse") eqn:E4.
  { apply String.eqb_eq in E4. subst. eexists. split; [reflexivity|].
    cbn. intuition. }
  apply String.eqb_neq in E1, E2, E3, E4.
  eexists. split; [reflexivity|]. cbn.
  split; [intuition|]. split; [|reflexivity].
  intros [H|[H|[H|[H|[]]]]]; congruence.
Qed.

(** What [run] passes on beside the transport: nothing for "stdio"; host,
    port and normalised path for every other transport; a log level only
    for "http" and "streamable-http", and only when it is a non-empty
    string. *)
Theorem run_network_parameters (transport host : string) (port : Z)
    (path : string) (log_level : option string) :
  exists call,
    run true transport host port path log_level = Ok call
    /\ (transport = "stdio" ->
        ra_host call = None /\ ra_port call = None /\ ra_path call = None
        /\ ra_log_level call = None)
    /\ (transport <> "stdio" ->
        ra_host call = Some host /\ ra_port call = Some port
        /\ ra_path call = Some (normalized_path path))
    /\ (forall l, ra_log_level call = Some l ->
        log_level = Some l /\ l <> ""
        /\ (transport = "http" \/ transport = "streamable-http")).
Proof.
  unfold run. cbn [negb].
  destruct (String.eqb transport "stdio") eqn:E1.
  { apply String.eqb_eq in E1. subst. eexists. split; [reflexivity|].
    cbn. repeat split; try congruence; discriminate. }
  apply String.eqb_neq in E1.
  assert (Hlevel : forall l,
             match log_level with
             | Some l0 => if PyStr.nonempty l0 then Some l0 else None
             | None => None
             end = Some l -> log_level = Some l /\ l <> "").
  { intros l. destruct log_level as [[|a l0]|]; cbn; intros [= <-].
    split; [reflexivity | discriminate]. }
  destruct (String.eqb transport "http") eqn:E2.
  { apply String.eqb_eq in E2. eexists. split; [reflexivity|].
    cbn. repeat split; try congruence;
      try (destruct (Hlevel l H); assumption). left. exact E2. }
  destruct (String.eqb transport "streamable-http") eqn:E3.
  { apply String.eqb_eq in E3. eexists. split; [reflexivity|].
    cbn. repeat split; try congruence;
      try (destruct (Hlevel l H); assumption). right. exact E3. }
  destruct (String.eqb transport "sse") eqn:E4;
    eexists; (split; [reflexivity|]); cbn;
    repeat split; try congruence; discriminate.
Qed.

(** ** Dictionaries *)

Lemma lookup_set_eq (k : string) (v : json) (d : pydict) :
  PyDict.lookup k (PyDict.set k v d) = Some v.
Proof.
  induction d as [|[k' v'] d IH]; cbn.
  - rewrite String.eqb_refl. reflexivity.
  - destruct (String.eqb k k') eqn:E; cbn; rewrite E; [reflexivity | exact IH].
Qed.

Lemma lookup_set_ne (k k' : string) (v : json) (d : pydict) :
  k <> k' -> PyDict.lookup k' (PyDict.set k v d) = PyDict.lookup k' d.
Proof.
  intros Hne. induction d as [|[k0 v0] d IH]; cbn.
  - apply not_eq_sym, String.eqb_neq in Hne. rewrite Hne. reflexivity.
  - destruct (String.eqb k k0) eqn:E; cbn.
    + apply String.eqb_eq in E. subst k0.
      apply not_eq_sym, String.eqb_neq in Hne. rewrite Hne. reflexivity.
    + rewrite IH. reflexivity.
Qed.

Lemma lookup_pop_eq (k : string) (d : pydict) :
  PyDict.lookup k (dict_pop k d) = None.
Proof.
  induction d as [|[k' v'] d IH]; cbn; [reflexivity|].
  destruct (String.eqb k k') eqn:E; cbn; [exact IH|]. rewrite E. exact IH.
Qed.

Lemma lookup_pop_ne (k k' : string) (d : pydict) :
  k <> k' -> PyDict.lookup k' (dict_pop k d) = PyDict.lookup k' d.
Proof.
  intros Hne. induction d as [|[k0 v0] d IH]; cbn; [reflexivity|].
  destruct (String.eqb k k0) eqn:E; cbn.
  - apply String.eqb_eq in E. subst k0.
    apply not_eq_sym, String.eqb_neq in Hne. rewrite Hne. exact IH.
  - rewrite IH. reflexivity.
Qed.

Lemma pop_absent (k : string) (d : pydict) :
  PyDict.lookup k d = None -> dict_pop k d = d.
Proof.
  induction d as [|[k' v'] d IH]; cbn; [reflexivity|].
  destruct (String.eqb k k'); [discriminate|].
  intros H. rewrite (IH H). reflexivity.
Qed.

Lemma set_set (k : string) (v w : json) (d : pydict) :
  PyDict.set k v (PyDict.set k w d) = PyDict.set k v d.
Proof.
  induction d as [|[k' v'] d IH]; cbn.
  - rewrite String.eqb_refl. reflexivity.
  - destruct (String.eqb k k') eqn:E; cbn; rewrite E; [reflexivity|].
    rewrite IH. reflexivity.
Qed.

Lemma dict_get_set_ne (k k' : string) (v : json) (d : pydict) :
  k <> k' -> dict_get k' (PyDict.set k v d) = dict_get k' d.
Proof.
  intros H. unfold dict_get. rewrite lookup_set_ne by exact H. reflexivity.
Qed.

Lemma dict_get_pop_ne (k k' : string) (d : pydict) :
  k <> k' -> dict_get k' (dict_pop k d) = dict_get k' d.
Proof.
  intros H. unfold dict_get. rewrite lookup_pop_ne by exact H. reflexivity.
Qed.

(** ** [_normalize_path_parameter] *)

Lemma normalize_steps (d : pydict) (route_path : string) :
  _normalize_path_parameter (JDict d) route_path
  = if not_path (dict_get "in" d) then JDict d
    else JDict (schema_step (default_step (require_step d))).
Proof.
  unfold _normalize_path_parameter, schema_step, default_step, require_step.
  destruct (not_path (dict_get "in" d)); [reflexivity|]. cbv zeta.
  match goal with |- context [dict_get "schema" ?x] =>
    destruct (dict_get "schema" x) end; try reflexivity.
  match goal with |- context [is_blank ?x] => destruct (is_blank x) end;
    reflexivity.
Qed.

Lemma require_step_lookup (k : string) (d : pydict) :
  k <> "required" ->
  PyDict.lookup k (require_step d) = PyDict.lookup k d.
Proof.
  intros H. unfold require_step.
  destruct (negb _); [|reflexivity].
  apply lookup_set_ne. congruence.
Qed.

Lemma default_step_lookup (k : string) (d : pydict) :
  k <> "default" ->
  PyDict.lookup k (default_step d) = PyDict.lookup k d.
Proof.
  intros H. unfold default_step.
  destruct (is_blank _); [|reflexivity].
  apply lookup_pop_ne. congruence.
Qed.

Lemma schema_step_lookup (k : string) (d : pydict) :
  k <> "schema" ->
  PyDict.lookup k (schema_step d) = PyDict.lookup k d.
Proof.
  intros H. unfold schema_step.
  destruct (dict_get "schema" d); try reflexivity.
  destruct (is_blank _); [|reflexivity].
  apply lookup_set_ne. congruence.
Qed.

Lemma require_step_truthy (d : pydict) :
  truthy (default (JBool false) (PyDict.lookup "required" (require_step d)))
  = true.
Proof.
  unfold require_step.
  destruct (truthy (default (JBool false) (PyDict.lookup "required" d)))
    eqn:E; cbn [negb].
  - exact E.
  - rewrite lookup_set_eq. reflexivity.
Qed.

Lemma default_step_not_blank (d : pydict) (v : json) :
  PyDict.lookup "default" (default_step d) = Some v -> is_blank v = false.
Proof.
  unfold default_step, dict_get.
  destruct (is_blank (default JNull (PyDict.lookup "default" d))) eqn:E.
  - rewrite lookup_pop_eq. discriminate.
  - intros H. rewrite H in E. exact E.
Qed.

Lemma schema_step_not_blank (d sd : pydict) (v : json) :
  PyDict.lookup "schema" (schema_step d) = Some (JDict sd) ->
  PyDict.lookup "default" sd = Some v -> is_blank v = false.
Proof.
  unfold schema_step, dict_get.
  destruct (PyDict.lookup "schema" d) as [s|] eqn:Es;
    cbn [default from_option id].
  - destruct s; try (rewrite Es; intros [= <-]; fail);
      try (rewrite Es; discriminate).
    destruct (is_blank (default JNull (PyDict.lookup "default" fields)))
      eqn:E.
    + rewrite lookup_set_eq. intros [= <-]. rewrite lookup_pop_eq.
      discriminate.
    + rewrite Es. intros [= <-] H. rewrite H in E. exact E.
  - rewrite Es. discriminate.
Qed.

(** A path parameter comes out required, with no blank default of its own
    and none in its schema; it is still a path parameter. *)
Theorem normalize_path_parameter_result (d : pydict) (route_path : string) :
  dict_get "in" d = JString "path" ->
  exists d',
    _normalize_path_parameter (JDict d) route_path = JDict d'
    /\ dict_get "in" d' = JString "path"
    /\ truthy (dict_get "required" d') = true
    /\ (forall v, PyDict.lookup "default" d' = Some v -> is_blank v = false)
    /\ (forall sd v,
          PyDict.lookup "schema" d' = Some (JDict sd) ->
          PyDict.lookup "default" sd = Some v -> is_blank v = false).
Proof.
  intros Hin. rewrite normalize_steps, Hin. cbn [not_path String.eqb].
  eexists. split; [reflexivity|].
  split.
  { unfold dict_get in *.
    rewrite schema_step_lookup, default_step_lookup, require_step_lookup
      by discriminate. exact Hin. }
  split.
  { unfold dict_get.
    rewrite schema_step_lookup, default_step_lookup by discriminate.
    pose proof (require_step_truthy d) as H.
    destruct (PyDict.lookup "required" (require_step d)); [exact H|].
    discriminate H. }
  split.
  { intros v. rewrite schema_step_lookup by discriminate.
    apply default_step_not_blank. }
  intros sd v. apply schema_step_not_blank.
Qed.

Lemma require_step_fixed (d : pydict) :
  truthy (default (JBool false) (PyDict.lookup "required" d)) = true ->
  require_step d = d.
Proof. intros H. unfold require_step. rewrite H. reflexivity. Qed.

Lemma default_step_fixed (d : pydict) :
  (forall v, PyDict.lookup "default" d = Some v -> is_blank v = false) ->
  default_step d = d.
Proof.
  intros H. unfold default_step, dict_get.
  destruct (PyDict.lookup "default" d) as [v|] eqn:E; cbn.
  - rewrite (H v eq_refl). reflexivity.
  - apply pop_absent. exact E.
Qed.

Lemma schema_step_idem (d : pydict) :
  schema_step (schema_step d) = schema_step d.
Proof.
  destruct (dict_get "schema" d) as [| | | | |l|sd] eqn:Es;
    try (assert (Hs : schema_step d = d)
           by (unfold schema_step; rewrite Es; reflexivity);
         rewrite Hs; exact Hs).
  destruct (is_blank (dict_get "default" sd)) eqn:Eb.
  - assert (Hs : schema_step d
                 = PyDict.set "schema" (JDict (dict_pop "default" sd)) d)
      by (unfold schema_step; rewrite Es, Eb; reflexivity).
    rewrite Hs. unfold schema_step, dict_get. rewrite lookup_set_eq.
    cbn [default from_option id]. rewrite lookup_pop_eq.
    cbn [default from_option id is_blank].
    rewrite (pop_absent "default" (dict_pop "default" sd))
      by apply lookup_pop_eq.
    apply set_set.
  - assert (Hs : schema_step d = d)
      by (unfold schema_step; rewrite Es, Eb; reflexivity).
    rewrite Hs. exact Hs.
Qed.

(** Normalising a parameter a second time changes nothing more, for any
    JSON value and whatever route paths are named. *)
Theorem normalize_path_parameter_idempotent (param : json)
    (route_path route_path' : string) :
  _normalize_path_parameter (_normalize_path_parameter param route_path)
    route_path'
  = _normalize_path_parameter param route_path.
Proof.
  destruct param as [| | | | | |d]; try reflexivity.
  rewrite (normalize_steps d route_path).
  destruct (not_path (dict_get "in" d)) eqn:Ein.
  - rewrite normalize_steps, Ein. reflexivity.
  - rewrite normalize_steps.
    set (d2 := default_step (require_step d)).
    assert (Hin : dict_get "in" (schema_step d2) = dict_get "in" d).
    { unfold dict_get, d2.
      rewrite schema_step_lookup, default_step_lookup, require_step_lookup
        by discriminate. reflexivity. }
    rewrite Hin, Ein. f_equal.
    rewrite (require_step_fixed (schema_step d2)).
    2:{ unfold d2. rewrite schema_step_lookup, default_step_lookup
          by discriminate. apply require_step_truthy. }
    rewrite (default_step_fixed (schema_step d2)).
    2:{ intros v. rewrite schema_step_lookup by discriminate.
        apply default_step_not_blank. }
    apply schema_step_idem.
Qed.

(** What the function leaves alone: a value that is not a dictionary, a
    parameter that is not a path parameter, and in a path parameter every
    field other than [required], [default] and [schema], a [required] that
    already counts as true, and a [default] that is neither "" nor null. *)
Theorem normalize_path_parameter_frame (param : json) (route_path : string) :
  ((forall d, param = JDict d -> not_path (dict_get "in" d) = true) ->
   _normalize_path_parameter param route_path = param)
  /\ (forall d, param = JDict d ->
      exists d',
        _normalize_path_parameter param route_path = JDict d'
        /\ (forall k, k <> "required" -> k <> "default" -> k <> "schema" ->
            PyDict.lookup k d' = PyDict.lookup k d)
        /\ (truthy (dict_get "required" d) = true ->
            PyDict.lookup "required" d' = PyDict.lookup "required" d)
        /\ (is_blank (dict_get "default" d) = false ->
            PyDict.lookup "default" d' = PyDict.lookup "default" d)).
Proof.
  split.
  - intros H. destruct param as [| | | | | |d]; try reflexivity.
    rewrite normalize_steps, (H d eq_refl). reflexivity.
  - intros d ->. rewrite normalize_steps.
    destruct (not_path (dict_get "in" d)).
    { exists d. repeat split. }
    eexists. split; [reflexivity|]. split; [|split].
    + intros k H1 H2 H3.
      rewrite schema_step_lookup, default_step_lookup, require_step_lookup
        by assumption. reflexivity.
    + intros Ht.
      rewrite schema_step_lookup, default_step_lookup by discriminate.
      rewrite require_step_fixed; [reflexivity|].
      unfold dict_get in Ht.
      destruct (PyDict.lookup "required" d); [exact Ht | discriminate Ht].
    + intros Hb. rewrite schema_step_lookup by discriminate.
      unfold default_step.
      assert (E : dict_get "default" (require_step d) = dict_get "default" d).
      { unfold dict_get. rewrite require_step_lookup by discriminate.
        reflexivity. }
      rewrite E, Hb. apply require_step_lookup. discriminate.
Qed.

(** ** More on the session client *)

Section ClientMore.

Variable construct_error : constructor_check.
Variable status_error_str : Response -> string.
Variable str_compound : json -> string.

(** [fetch_openapi_spec] in one equation: the shared client is asked for
    first, outside the [try]; when that raises, so does the fetch, and
    otherwise the request decides. *)
Lemma fetch_openapi_spec_run (up : Upstream) (spec_url : string)
    (st : State) :
  fetch_openapi_spec construct_error status_error_str str_compound up
    spec_url st
  = (match fst (get_authenticated_client construct_error str_compound st) with
     | Raise e => Raise e
     | Ok _ =>
         match on_get up spec_url with
         | Ok r =>
             if is_success r then
               match parsed r with
               | Ok v => Ok v
               | Raise m => Raise (JSONDecodeError m)
               end
             else
               Raise
                 (RuntimeError
                    ("Failed to fetch OpenAPI spec (status "
                     ++ PyStr.of_int (status_code r) ++ "): "
                     ++ PyStr.or_else (PyStr.strip (text r))
                          (status_error_str r)))
         | Raise (HTTPStatusError r m) =>
             Raise
               (RuntimeError
                  ("Failed to fetch OpenAPI spec (status "
                   ++ PyStr.of_int (status_code r) ++ "): "
                   ++ PyStr.or_else (PyStr.strip (text r)) m))
         | Raise (HTTPError m) =>
             Raise (RuntimeError ("Failed to fetch OpenAPI spec: " ++ m))
         | Raise e => Raise e
         end
     end,
     snd (get_authenticated_client construct_error str_compound st)).
Proof.
  unfold fetch_openapi_spec, bind.
  destruct (get_authenticated_client construct_error str_compound st)
    as [[c|e0] st1]; cbn [fst snd]; [|reflexivity].
  unfold try_except, bind, client_get, await, raise_for_status,
    response_json, raise, ret.
  destruct (on_get up spec_url) as [r|e];
    [destruct (is_success r); [destruct (parsed r)|]; reflexivity
    |destruct e; reflexivity].
Qed.

Lemma fetch_openapi_spec_refused (up : Upstream) (spec_url : string)
    (st : State) :
  truthy (_token (self st)) = false ->
  fetch_openapi_spec construct_error status_error_str str_compound up
    spec_url st
  = (Raise (RuntimeError "Not authenticated. Call authenticate() first."),
     st).
Proof.
  intros Ht. rewrite fetch_openapi_spec_run.
  rewrite get_authenticated_client_eq, Ht. reflexivity.
Qed.

(** [fetch_openapi_spec] on a client that holds a token and whose shared
    client is held or can be built: the request decides. *)
Lemma fetch_openapi_spec_eq (up : Upstream) (spec_url : string) (st : State) :
  ready construct_error str_compound st = true ->
  fetch_openapi_spec construct_error status_error_str str_compound up
    spec_url st
  = (match on_get up spec_url with
     | Ok r =>
         if is_success r then
           match parsed r with
           | Ok v => Ok v
           | Raise m => Raise (JSONDecodeError m)
           end
         else
           Raise
             (RuntimeError
                ("Failed to fetch OpenAPI spec (status "
                 ++ PyStr.of_int (status_code r) ++ "): "
                 ++ PyStr.or_else (PyStr.strip (text r))
                      (status_error_str r)))
     | Raise (HTTPStatusError r m) =>
         Raise
           (RuntimeError
              ("Failed to fetch OpenAPI spec (status "
               ++ PyStr.of_int (status_code r) ++ "): "
               ++ PyStr.or_else (PyStr.strip (text r)) m))
     | Raise (HTTPError m) =>
         Raise (RuntimeError ("Failed to fetch OpenAPI spec: " ++ m))
     | Raise e => Raise e
     end,
     snd (get_authenticated_client construct_error str_compound st)).
Proof.
  intros Hr. rewrite fetch_openapi_spec_run.
  destruct (get_authenticated_client_ready construct_error str_compound st Hr)
    as [_ ->].
  destruct (_client (self st)); reflexivity.
Qed.

Local Abbreviation authenticate :=
  (authenticate construct_error status_error_str).
Local Abbreviation get_authenticated_client :=
  (get_authenticated_client construct_error str_compound).
Local Abbreviation fetch_openapi_spec :=
  (fetch_openapi_spec construct_error status_error_str str_compound).
Local Abbreviation session :=
  (session construct_error status_error_str str_compound).
Local Abbreviation login_constructible :=
  (login_constructible construct_error).

(** A login that raises, for whatever reason, leaves every attribute of the
    session client as it was: the stored token and the reference to the
    shared client. *)
Theorem failed_login_changes_nothing (up : Upstream)
    (username password : string) (duration_ms : Z) (login_path : string)
    (st st' : State) (e : exn) :
  authenticate up username password duration_ms login_path st
  = (Raise e, st') ->
  self st' = self st.
Proof.
  intros H.
  pose proof (authenticate_effect construct_error status_error_str up
                username password duration_ms login_path st) as [_ Hself].
  cbv zeta in Hself. rewrite H in Hself. exact Hself.
Qed.

(** When the constructor refuses the arguments of the login client (a base
    URL it cannot parse), [authenticate] raises the constructor's exception
    and nothing has happened: no object is built and the state is as it
    was. Otherwise, whatever the platform answers and whether a token is
    already stored or not, [authenticate] adds exactly one object to the
    store: the login client, built with the session's address, TLS flag and
    timeout, without any [Authorization] header, and closed by the time the
    call ends. *)
Theorem login_client_released (up : Upstream) (username password : string)
    (duration_ms : Z) (login_path : string) (st : State) :
  let out := authenticate up username password duration_ms login_path st in
  match
    construct_error (base_url (self st)) (verify_tls (self st))
      (timeout (self st)) login_headers
  with
  | Some e => out = (Raise e, st)
  | None =>
      exists a,
        store (snd out) = (store st ++ [a])%list
        /\ ac_closed a = true
        /\ ac_headers a !! "Authorization" = None
        /\ ac_base_url a = base_url (self st)
        /\ ac_verify a = verify_tls (self st)
        /\ ac_timeout a = timeout (self st)
  end.
Proof.
  cbv zeta.
  destruct (construct_error (base_url (self st)) (verify_tls (self st))
              (timeout (self st)) login_headers) as [e|] eqn:E.
  - assert (Hc : login_constructible (self st) = false)
      by (unfold login_constructible; rewrite E; reflexivity).
    destruct (authenticate_unbuilt construct_error status_error_str up
                username password duration_ms login_path st Hc)
      as (e' & E' & ->).
    rewrite E in E'. injection E' as <-. reflexivity.
  - assert (Hc : login_constructible (self st) = true)
      by (unfold login_constructible; rewrite E; reflexivity).
    pose proof (authenticate_effect construct_error status_error_str up
                  username password duration_ms login_path st)
      as [Hstore _].
    cbv zeta in Hstore. rewrite Hc in Hstore.
    exists (login_client (self st)). split; [exact Hstore|]. repeat split.
Qed.

(** [authenticate] returns a token exactly when the login client was built
    and the platform answered with a 2xx response whose body is a JSON
    object with a true [access_token]; that token is what it returns. *)
Theorem login_succeeds_iff (up : Upstream) (username password : string)
    (duration_ms : Z) (login_path : string) (st : State) (tok : json) :
  fst (authenticate up username password duration_ms login_path st) = Ok tok
  <-> login_constructible (self st) = true
      /\ exists r d,
          on_post up login_path (login_payload username password duration_ms)
          = Ok r
          /\ is_success r = true
          /\ parsed r = Ok (JDict d)
          /\ PyDict.lookup "access_token" d = Some tok
          /\ truthy tok = true.
Proof.
  split.
  - intros H.
    destruct (login_constructible (self st)) eqn:Hc.
    2:{ destruct (authenticate_unbuilt construct_error status_error_str up
                    username password duration_ms login_path st Hc)
          as (e & _ & E).
        rewrite E in H. discriminate H. }
    split; [reflexivity|].
    destruct (on_post up login_path
                (login_payload username password duration_ms))
      as [r|e] eqn:Hpost.
    + rewrite (authenticate_response _ _ _ _ _ _ _ _ _ Hc Hpost) in H.
      cbv zeta in H.
      destruct (is_success r) eqn:Hs; [|discriminate H].
      destruct (parsed r) as [data|m] eqn:Hp; [|discriminate H].
      destruct data as [| | | | | |d]; try discriminate H.
      destruct (PyDict.lookup "access_token" d) as [v|] eqn:Hl;
        cbn [default from_option id] in H; [|discriminate H].
      destruct (truthy v) eqn:Ht; [|discriminate H].
      injection H as <-. exists r, d. repeat split; assumption.
    + rewrite (authenticate_raised _ _ _ _ _ _ _ _ _ Hc Hpost) in H.
      discriminate H.
  - intros (Hc & r & d & Hpost & Hs & Hp & Hl & Ht).
    rewrite (authenticate_response _ _ _ _ _ _ _ _ _ Hc Hpost). cbv zeta.
    rewrite Hs, Hp, Hl. cbn [default from_option id]. rewrite Ht.
    reflexivity.
Qed.

(** When the login request was sent (the login client was built) and cannot
    be carried out (an [httpx.HTTPError] other than a status error),
    [authenticate] raises "Authentication request failed" with the
    library's message; any other exception of the request goes to the
    caller as it is. *)
Theorem login_transport_error (up : Upstream) (username password : string)
    (duration_ms : Z) (login_path : string) (st : State) (e : exn) :
  login_constructible (self st) = true ->
  on_post up login_path (login_payload username password duration_ms)
  = Raise e ->
  (forall r m, e <> HTTPStatusError r m) ->
  fst (authenticate up username password duration_ms login_path st)
  = Raise match e with
          | HTTPError m =>
              RuntimeError ("Authentication request failed: " ++ m)
          | _ => e
          end.
Proof.
  intros Hc Hpost Hne.
  rewrite (authenticate_raised _ _ _ _ _ _ _ _ _ Hc Hpost).
  destruct e; try reflexivity. exfalso. eapply Hne. reflexivity.
Qed.

(** A 2xx login response (to a request that was sent) whose body is not a
    JSON object is not turned into the authentication error: a body that
    does not parse raises the parser's [JSONDecodeError], a JSON value of
    another type raises [AttributeError] for the missing [get]. *)
Theorem login_body_not_object (up : Upstream) (username password : string)
    (duration_ms : Z) (login_path : string) (st : State) (r : Response) :
  login_constructible (self st) = true ->
  on_post up login_path (login_payload username password duration_ms)
  = Ok r ->
  is_success r = true ->
  (forall d, parsed r <> Ok (JDict d)) ->
  fst (authenticate up username password duration_ms login_path st)
  = Raise match parsed r with
          | Raise m => JSONDecodeError m
          | Ok v =>
              AttributeError
                ("'" ++ type_name v ++ "' object has no attribute 'get'")
          end.
Proof.
  intros Hc Hpost Hs Hne.
  rewrite (authenticate_response _ _ _ _ _ _ _ _ _ Hc Hpost). cbv zeta.
  rewrite Hs. destruct (parsed r) as [v|m]; [|reflexivity].
  destruct v; try reflexivity. exfalso. eapply Hne. reflexivity.
Qed.

(** A 2xx login response that is a JSON object without an [access_token]
    field raises the missing-token error. *)
Theorem login_missing_token_field (up : Upstream)
    (username password : string) (duration_ms : Z) (login_path : string)
    (st : State) (r : Response) (d : pydict) :
  login_constructible (self st) = true ->
  on_post up login_path (login_payload username password duration_ms)
  = Ok r ->
  is_success r = true ->
  parsed r = Ok (JDict d) ->
  PyDict.lookup "access_token" d = None ->
  fst (authenticate up username password duration_ms login_path st)
  = Raise (RuntimeError
             "Authentication response did not include 'access_token'.").
Proof.
  intros Hc Hpost Hs Hp Hl.
  rewrite (authenticate_response _ _ _ _ _ _ _ _ _ Hc Hpost). cbv zeta.
  rewrite Hs, Hp, Hl. reflexivity.
Qed.

(** Until a login has succeeded, [get_authenticated_client] and
    [fetch_openapi_spec] both raise "Not authenticated", and neither
    changes the state: no object is constructed and no request is made,
    failed logins in between notwithstanding. *)
Theorem refused_before_login (b : string) (v : bool) (t : spec_float)
    (st : State) (up : Upstream) (spec_url : string) :
  session b v t None st ->
  get_authenticated_client st
  = (Raise (RuntimeError "Not authenticated. Call authenticate() first."), st)
  /\ fetch_openapi_spec up spec_url st
     = (Raise (RuntimeError "Not authenticated. Call authenticate() first."),
        st).
Proof.
  intros Hs. destruct (session_invariant _ _ _ _ _ _ _ _ Hs)
    as (_ & _ & _ & Htk & _ & _).
  cbn in Htk.
  assert (Hg : get_authenticated_client st
               = (Raise (RuntimeError
                           "Not authenticated. Call authenticate() first."),
                  st)).
  { rewrite get_authenticated_client_eq, Htk. reflexivity. }
  split; [exact Hg|].
  apply fetch_openapi_spec_refused. rewrite Htk. reflexivity.
Qed.

End ClientMore.

(** ** More on the data views *)

Section ViewsMore.

Variable construct_error : constructor_check.
Variable str_compound : json -> string.

(** Asking for the shared client a second time changes nothing more. *)
Lemma get_client_state_idem (st : State) :
  snd (get_authenticated_client construct_error str_compound
         (snd (get_authenticated_client construct_error str_compound st)))
  = snd (get_authenticated_client construct_error str_compound st).
Proof.
  rewrite (get_authenticated_client_eq construct_error str_compound st).
  destruct (truthy (_token (self st))) eqn:Ht.
  - destruct (_client (self st)) as [c|] eqn:Ec; cbn [snd].
    + rewrite get_authenticated_client_eq, Ht, Ec. reflexivity.
    + destruct (construct_error _ _ _ _) eqn:E; cbn [snd].
      * rewrite get_authenticated_client_eq, Ht, Ec, E. reflexivity.
      * rewrite get_authenticated_client_eq. cbn [self with_client _token
          _client]. rewrite Ht. reflexivity.
  - cbn [snd]. rewrite get_authenticated_client_eq, Ht. reflexivity.
Qed.

Ltac view_cases up :=
  repeat match goal with
         | |- context [on_get up ?p] => destruct (on_get up p) as [?r|?e]
         | |- context [(status_code ?r =? 200)%Z] =>
             destruct (status_code r =? 200)%Z
         | |- context [parsed ?r] => destruct (parsed r) as [?v|?m]
         end.

Lemma beacons_view_run (up : Upstream) (st : State) :
  exists v,
    active_beacons_resource construct_error str_compound up st
    = (Ok v, snd (get_authenticated_client construct_error str_compound st)).
Proof.
  unfold active_beacons_resource, try_except, bind.
  destruct (get_authenticated_client construct_error str_compound st)
    as [[c|e] st1];
    cbn [snd]; [|eexists; reflexivity].
  unfold client_get, await, ret. view_cases up; eexists; reflexivity.
Qed.

Lemma listeners_view_run (up : Upstream) (st : State) :
  exists v,
    active_listeners_resource construct_error str_compound up st
    = (Ok v, snd (get_authenticated_client construct_error str_compound st)).
Proof.
  unfold active_listeners_resource, try_except, bind.
  destruct (get_authenticated_client construct_error str_compound st)
    as [[c|e] st1];
    cbn [snd]; [|eexists; reflexivity].
  unfold client_get, await, response_json, ret, raise.
  view_cases up; eexists; reflexivity.
Qed.

Lemma recent_activity_view_run (up : Upstream) (st : State) :
  exists v,
    recent_activity_resource construct_error str_compound up st
    = (Ok v, snd (get_authenticated_client construct_error str_compound st)).
Proof.
  unfold recent_activity_resource, try_except, bind.
  destruct (get_authenticated_client construct_error str_compound st)
    as [[c|e] st1];
    cbn [snd]; [|eexists; reflexivity].
  unfold client_get, await, response_json, ret, raise.
  view_cases up; eexists; reflexivity.
Qed.

Lemma server_info_view_run (up : Upstream) (st : State) :
  exists v,
    server_info_resource construct_error str_compound up st
    = (Ok v, snd (get_authenticated_client construct_error str_compound st)).
Proof.
  unfold server_info_resource, try_except, bind.
  destruct (get_authenticated_client construct_error str_compound st)
    as [[c|e] st1];
    cbn [snd]; [|eexists; reflexivity].
  unfold client_get, await, get_self, ret.
  destruct (on_get up "/api/v1/config/localip") as [r1|e1];
    [|eexists; reflexivity].
  destruct (on_get up "/api/v1/config/systeminformation") as [r2|e2];
    [|eexists; reflexivity].
  destruct (status_code r2 =? 200)%Z; eexists; reflexivity.
Qed.

Lemma dashboard_view_run (up : Upstream) (st : State) :
  exists v,
    dashboard_stats_resource construct_error str_compound up st
    = (Ok v, snd (get_authenticated_client construct_error str_compound st)).
Proof.
  unfold dashboard_stats_resource, try_except, bind.
  destruct (get_authenticated_client construct_error str_compound st)
    as [[c|e] st1];
    cbn [snd]; [|eexists; reflexivity].
  rewrite dashboard_loop_eq. eexists; reflexivity.
Qed.

(** Every data view returns normally, for every behaviour of the platform
    and every state of the session, the unauthenticated one included; what
    it does to the session is what [get_authenticated_client] does, so a
    view never closes the shared client and never touches the token. *)
Theorem views_always_return (up : Upstream) (st : State) :
  let st' := snd (get_authenticated_client construct_error str_compound st) in
  (exists v,
        active_beacons_resource construct_error str_compound up st
        = (Ok v, st'))
  /\ (exists v,
        server_info_resource construct_error str_compound up st
        = (Ok v, st'))
  /\ (exists v,
        recent_activity_resource construct_error str_compound up st
        = (Ok v, st'))
  /\ (exists v,
        active_listeners_resource construct_error str_compound up st
        = (Ok v, st'))
  /\ (exists v,
        dashboard_stats_resource construct_error str_compound up st
        = (Ok v, st'))
  /\ _token (self st') = _token (self st).
Proof.
  cbv zeta.
  split; [apply beacons_view_run|].
  split; [apply server_info_view_run|].
  split; [apply recent_activity_view_run|].
  split; [apply listeners_view_run|].
  split; [apply dashboard_view_run|].
  rewrite get_authenticated_client_eq.
  destruct (truthy (_token (self st))); [|reflexivity].
  destruct (_client (self st)); [reflexivity|].
  destruct (construct_error _ _ _ _); reflexivity.
Qed.

(** Once the shared client exists, a data view leaves the whole state as it
    is: it constructs no client of its own. *)
Theorem views_reuse_shared_client (up : Upstream) (st : State) (c : ref) :
  truthy (_token (self st)) = true ->
  _client (self st) = Some c ->
  snd (active_beacons_resource construct_error str_compound up st) = st
  /\ snd (server_info_resource construct_error str_compound up st) = st
  /\ snd (recent_activity_resource construct_error str_compound up st) = st
  /\ snd (active_listeners_resource construct_error str_compound up st) = st
  /\ snd (dashboard_stats_resource construct_error str_compound up st) = st.
Proof.
  intros Ht Hc.
  assert (Hg : snd (get_authenticated_client construct_error str_compound st)
               = st)
    by (rewrite get_authenticated_client_eq, Ht, Hc; reflexivity).
  destruct (beacons_view_run up st) as [v1 ->].
  destruct (server_info_view_run up st) as [v2 ->].
  destruct (recent_activity_view_run up st) as [v3 ->].
  destruct (listeners_view_run up st) as [v4 ->].
  destruct (dashboard_view_run up st) as [v5 ->].
  cbn [snd]. repeat split; exact Hg.
Qed.

(** On a client that holds no token every view answers with the error
    envelope naming the missing authentication, and leaves the state as it
    is: no request is sent. *)
Theorem views_unauthenticated (up : Upstream) (st : State) :
  truthy (_token (self st)) = false ->
  let e := RuntimeError "Not authenticated. Call authenticate() first." in
  active_beacons_resource construct_error str_compound up st
  = (Ok (Dumped (exception_envelope e "Error while fetching beacon data")),
     st)
  /\ server_info_resource construct_error str_compound up st
     = (Ok (exception_envelope e "Error while fetching server information"),
        st)
  /\ recent_activity_resource construct_error str_compound up st
     = (Ok (exception_envelope e "Error while fetching activity logs"), st)
  /\ active_listeners_resource construct_error str_compound up st
     = (Ok (exception_envelope e "Error while fetching listener data"), st)
  /\ dashboard_stats_resource construct_error str_compound up st
     = (Ok (exception_envelope e "Error while fetching dashboard statistics"),
        st).
Proof.
  intros Ht. cbv zeta.
  unfold active_beacons_resource, server_info_resource,
    recent_activity_resource, active_listeners_resource,
    dashboard_stats_resource, try_except, bind.
  rewrite get_authenticated_client_eq, Ht. repeat split.
Qed.

(** Once a view has its client (a token is stored and the shared client is
    held or can be constructed), the three views of a single endpoint answer
    a status other than 200 with the error envelope that carries the status
    as a number. *)
Theorem single_endpoint_views_report_status (up : Upstream) (st : State)
    (path : string) (r : Response) :
  ready construct_error str_compound st = true ->
  on_get up path = Ok r ->
  status_code r <> 200%Z ->
  (path = "/api/v1/beacons" ->
   fst (active_beacons_resource construct_error str_compound up st)
   = Ok (Dumped
           (JDict [("error", JString "Failed to fetch beacons");
                   ("status_code", JInt (status_code r));
                   ("message",
                    JString "Unable to retrieve active beacon data")])))
  /\ (path = "/api/v1/tasks" ->
      fst (recent_activity_resource construct_error str_compound up st)
      = Ok (JDict [("error", JString "Failed to fetch activity logs");
                   ("status_code", JInt (status_code r));
                   ("message",
                    JString "Unable to retrieve recent activity data")]))
  /\ (path = "/api/v1/listeners" ->
      fst (active_listeners_resource construct_error str_compound up st)
      = Ok (JDict [("error", JString "Failed to fetch listeners");
                   ("status_code", JInt (status_code r));
                   ("message", JString "Unable to retrieve listener data")])).
Proof.
  intros Ht Hget Hne. apply Z.eqb_neq in Hne.
  destruct (get_authenticated_client_ok construct_error str_compound st Ht)
    as (c & st' & Hg & _).
  repeat split; intros ->;
    unfold active_beacons_resource, recent_activity_resource,
      active_listeners_resource, try_except, bind, client_get, await, ret;
    rewrite Hg, Hget, Hne; reflexivity.
Qed.

(** Once it has its client, the beacon view hands a 200 body on as text,
    without parsing it: the result is the same whether or not the body is
    JSON. *)
Theorem beacons_view_verbatim (up : Upstream) (st : State) (r : Response) :
  ready construct_error str_compound st = true ->
  on_get up "/api/v1/beacons" = Ok r ->
  status_code r = 200%Z ->
  fst (active_beacons_resource construct_error str_compound up st)
  = Ok (Verbatim (text r)).
Proof.
  intros Ht Hget H200.
  destruct (get_authenticated_client_ok construct_error str_compound st Ht)
    as (c & st' & Hg & _).
  unfold active_beacons_resource, try_except, bind, client_get, await, ret.
  rewrite Hg, Hget, H200. reflexivity.
Qed.

(** Once it has its client, the listener view returns a 200 JSON body
    whole, with its length as [total_listeners] (1 when it is not a list);
    the listener and recent-activity views answer a 200 body that does not
    parse with the error envelope carrying the parser's message. *)
Theorem parsing_views_on_200 (up : Upstream) (st : State) (path : string)
    (r : Response) :
  ready construct_error str_compound st = true ->
  on_get up path = Ok r ->
  status_code r = 200%Z ->
  (path = "/api/v1/listeners" ->
   fst (active_listeners_resource construct_error str_compound up st)
   = Ok match parsed r with
        | Ok v =>
            JDict [("metadata",
                    JDict [("total_listeners", JInt (len_or_one v));
                           ("status", JString "active");
                           ("last_updated", JString "real-time")]);
                   ("listeners", v)]
        | Raise m =>
            exception_envelope (JSONDecodeError m)
              "Error while fetching listener data"
        end)
  /\ (path = "/api/v1/tasks" ->
      forall m, parsed r = Raise m ->
      fst (recent_activity_resource construct_error str_compound up st)
      = Ok (exception_envelope (JSONDecodeError m)
              "Error while fetching activity logs")).
Proof.
  intros Ht Hget H200.
  destruct (get_authenticated_client_ok construct_error str_compound st Ht)
    as (c & st' & Hg & _).
  split; intros ->.
  - unfold active_listeners_resource, try_except, bind, client_get, await,
      response_json, ret, raise.
    rewrite Hg, Hget, H200. destruct (parsed r); reflexivity.
  - intros m Hp.
    unfold recent_activity_resource, try_except, bind, client_get, await,
      response_json, ret, raise.
    rewrite Hg, Hget, H200, Hp. reflexivity.
Qed.

(** Once it has its client, for every 200 answer with a JSON body the
    recent-activity view reports counts with [shown <= available] and
    [shown <= 50]; a list is cut to its first 50 items and any other JSON
    value is handed on as it is, counted as one item. *)
Theorem recent_activity_counts (up : Upstream) (st : State) (r : Response)
    (v : json) :
  ready construct_error str_compound st = true ->
  on_get up "/api/v1/tasks" = Ok r ->
  status_code r = 200%Z ->
  parsed r = Ok v ->
  exists shown available activities,
    fst (recent_activity_resource construct_error str_compound up st)
    = Ok (JDict [("metadata", activity_metadata shown available);
                 ("activities", activities)])
    /\ (shown <= available)%Z
    /\ (shown <= 50)%Z
    /\ available = len_or_one v
    /\ activities = match v with JList l => JList (take 50 l) | _ => v end.
Proof.
  intros Ht Hget H200 Hp.
  destruct (get_authenticated_client_ok construct_error str_compound st Ht)
    as (c & st' & Hg & _).
  unfold recent_activity_resource, try_except, bind, client_get, await,
    response_json, ret.
  rewrite Hg, Hget, H200, Hp. cbn [fst].
  eexists _, _, _. split; [reflexivity|].
  destruct v as [| | | | |l|d]; cbn [len_or_one];
    try (repeat split; lia).
  rewrite length_take. repeat split; lia.
Qed.

End ViewsMore.

(** ** Fetching the specification, and the store of connections *)

Section Lifecycle.

Variable construct_error : constructor_check.
Variable status_error_str : Response -> string.
Variable str_compound : json -> string.

Local Abbreviation authenticate :=
  (authenticate construct_error status_error_str).
Local Abbreviation get_authenticated_client :=
  (get_authenticated_client construct_error str_compound).
Local Abbreviation fetch_openapi_spec :=
  (fetch_openapi_spec construct_error status_error_str str_compound).
Local Abbreviation api_call :=
  (api_call construct_error status_error_str str_compound).
Local Abbreviation ready := (ready construct_error str_compound).

(** On a client that holds a token and whose shared client is held or can
    be constructed, a spec answer with a status outside 200..299 makes
    [fetch_openapi_spec] raise "Failed to fetch OpenAPI spec (status N)"
    followed by the stripped body text, or by httpx's message when that
    text is empty. *)
Theorem fetch_spec_status_error (up : Upstream) (spec_url : string)
    (st : State) (r : Response) :
  ready st = true ->
  on_get up spec_url = Ok r ->
  is_success r = false ->
  fst (fetch_openapi_spec up spec_url st)
  = Raise (RuntimeError
             ("Failed to fetch OpenAPI spec (status "
              ++ PyStr.of_int (status_code r) ++ "): "
              ++ PyStr.or_else (PyStr.strip (text r)) (status_error_str r))).
Proof.
  intros Ht Hget Hs.
  rewrite (fetch_openapi_spec_eq _ _ _ _ _ _ Ht), Hget, Hs. reflexivity.
Qed.

(** On a client that holds a token and whose shared client is held or can
    be constructed: a spec request that cannot be carried out raises
    "Failed to fetch OpenAPI spec" with the library's message, any other
    exception of the request goes to the caller as it is, and so does the
    parser's error for a 2xx body that is not JSON. *)
Theorem fetch_spec_other_errors (up : Upstream) (spec_url : string)
    (st : State) :
  ready st = true ->
  (forall e,
      on_get up spec_url = Raise e ->
      (forall r m, e <> HTTPStatusError r m) ->
      fst (fetch_openapi_spec up spec_url st)
      = Raise match e with
              | HTTPError m =>
                  RuntimeError ("Failed to fetch OpenAPI spec: " ++ m)
              | _ => e
              end)
  /\ (forall r m,
      on_get up spec_url = Ok r ->
      is_success r = true ->
      parsed r = Raise m ->
      fst (fetch_openapi_spec up spec_url st) = Raise (JSONDecodeError m)).
Proof.
  intros Ht. split.
  - intros e Hget Hne.
    rewrite (fetch_openapi_spec_eq _ _ _ _ _ _ Ht), Hget. cbn [fst].
    destruct e; try reflexivity. exfalso. eapply Hne. reflexivity.
  - intros r m Hget Hs Hp.
    rewrite (fetch_openapi_spec_eq _ _ _ _ _ _ Ht), Hget, Hs, Hp. reflexivity.
Qed.

(** On a client that holds a token and whose shared client is held or can
    be constructed, a 2xx answer whose body parses makes
    [fetch_openapi_spec] return the parsed document, whatever JSON value it
    is. *)
Theorem fetch_spec_returns_document (up : Upstream) (spec_url : string)
    (st : State) (r : Response) (doc : json) :
  ready st = true ->
  on_get up spec_url = Ok r ->
  is_success r = true ->
  parsed r = Ok doc ->
  fst (fetch_openapi_spec up spec_url st) = Ok doc.
Proof.
  intros Ht Hget Hs Hp.
  rewrite (fetch_openapi_spec_eq _ _ _ _ _ _ Ht), Hget, Hs, Hp. reflexivity.
Qed.

Lemma fetch_spec_state (up : Upstream) (spec_url : string) (st : State) :
  snd (fetch_openapi_spec up spec_url st) = snd (get_authenticated_client st).
Proof.
  rewrite fetch_openapi_spec_run. reflexivity.
Qed.

(** Whether it returns or raises, [fetch_openapi_spec] leaves the session
    as [get_authenticated_client] would: the shared client it obtained
    stays in place, open, and the next [get_authenticated_client] hands out
    that same object without changing anything. *)
Theorem fetch_spec_session_effect (up : Upstream) (spec_url : string)
    (st : State) :
  let st' := snd (fetch_openapi_spec up spec_url st) in
  st' = snd (get_authenticated_client st)
  /\ get_authenticated_client st'
     = (fst (get_authenticated_client st), st').
Proof.
  cbv zeta.
  pose proof (fetch_spec_state up spec_url st) as E.
  split; [exact E|]. rewrite E.
  rewrite (get_authenticated_client_eq construct_error str_compound st).
  destruct (truthy (_token (self st))) eqn:Ht.
  - destruct (_client (self st)) as [c|] eqn:Ec; cbn [fst snd].
    + rewrite get_authenticated_client_eq, Ht, Ec. reflexivity.
    + destruct (construct_error _ _ _ _) eqn:Ek; cbn [fst snd].
      * rewrite get_authenticated_client_eq, Ht, Ec, Ek. reflexivity.
      * rewrite get_authenticated_client_eq.
        cbn [self with_client _token _client]. rewrite Ht. reflexivity.
  - cbn [fst snd]. rewrite get_authenticated_client_eq, Ht. reflexivity.
Qed.

Lemma only_shared_open_get (st : State) :
  only_shared_open st ->
  only_shared_open (snd (get_authenticated_client st)).
Proof.
  intros H. rewrite get_authenticated_client_eq.
  destruct (truthy (_token (self st))); [|exact H].
  destruct (_client (self st)) as [c|] eqn:Ec; [exact H|].
  destruct (construct_error _ _ _ _); [exact H|].
  intros i a Hi Ha. cbn [snd self store with_client _client] in *.
  destruct (decide (i = length (store st))) as [->|Hne]; [reflexivity|].
  assert (Hlt : i < length (store st)).
  { apply lookup_lt_Some in Hi. rewrite length_app in Hi. cbn in Hi. lia. }
  rewrite lookup_app_l in Hi by exact Hlt.
  specialize (H i a Hi Ha). rewrite Ec in H. discriminate H.
Qed.

Lemma only_shared_open_close (st : State) :
  only_shared_open st ->
  only_shared_open (snd (close st))
  /\ forall i a, store (snd (close st)) !! i = Some a -> ac_closed a = true.
Proof.
  intros H. rewrite close_eq. cbn [snd].
  destruct (_client (self st)) as [c|] eqn:Ec.
  - assert (Hall : forall i a,
               alter mark_closed c (store st) !! i = Some a ->
               ac_closed a = true).
    { intros i a Hi. destruct (decide (c = i)) as [->|Hne].
      - rewrite list_lookup_alter_eq in Hi.
        destruct (store st !! i); [|discriminate Hi].
        injection Hi as <-. reflexivity.
      - rewrite list_lookup_alter_ne in Hi by exact Hne.
        destruct (ac_closed a) eqn:Ea; [reflexivity|].
        specialize (H i a Hi Ea). rewrite Ec in H. congruence. }
    split; [|exact Hall].
    intros i a Hi Ha. cbn [store] in Hi. rewrite (Hall i a Hi) in Ha.
    discriminate Ha.
  - assert (Hall : forall i a, store st !! i = Some a -> ac_closed a = true).
    { intros i a Hi. destruct (ac_closed a) eqn:Ea; [reflexivity|].
      specialize (H i a Hi Ea). rewrite Ec in H. discriminate H. }
    split; [exact H | exact Hall].
Qed.

Lemma only_shared_open_authenticate (up : Upstream)
    (username password : string) (duration_ms : Z) (login_path : string)
    (st : State) :
  only_shared_open st ->
  only_shared_open
    (snd (authenticate up username password duration_ms login_path st)).
Proof.
  intros H.
  pose proof (authenticate_effect construct_error status_error_str up
                username password duration_ms login_path st)
    as [Hstore Hself].
  cbv zeta in Hstore, Hself.
  assert (Hc : _client
                 (self (snd (authenticate up username password duration_ms
                               login_path st)))
               = _client (self st)).
  { destruct (fst (authenticate up username password duration_ms login_path
                     st)); [destruct Hself as (_ & _ & ->) | rewrite Hself];
      reflexivity. }
  intros i a Hi Ha. rewrite Hc. rewrite Hstore in Hi.
  destruct (login_constructible construct_error (self st));
    [|exact (H i a Hi Ha)].
  destruct (decide (i < length (store st))) as [Hlt|Hge].
  - rewrite lookup_app_l in Hi by exact Hlt. exact (H i a Hi Ha).
  - rewrite lookup_app_r in Hi by lia.
    destruct (i - length (store st)) as [|n]; cbn in Hi; [|discriminate Hi].
    injection Hi as <-. discriminate Ha.
Qed.

Lemma api_call_only_shared_open (st st' : State) :
  api_call st st' -> only_shared_open st -> only_shared_open st'.
Proof.
  intros Hcall H.
  destruct Hcall as [up u p d lp st | st | up url st | st | up st | up st
                    | up st | up st | up st].
  - apply only_shared_open_authenticate, H.
  - apply only_shared_open_get, H.
  - rewrite fetch_spec_state. apply only_shared_open_get, H.
  - apply only_shared_open_close, H.
  - destruct (beacons_view_run construct_error str_compound up st) as [v ->].
    apply only_shared_open_get, H.
  - destruct (server_info_view_run construct_error str_compound up st)
      as [v ->].
    apply only_shared_open_get, H.
  - destruct (recent_activity_view_run construct_error str_compound up st)
      as [v ->].
    apply only_shared_open_get, H.
  - destruct (listeners_view_run construct_error str_compound up st) as [v ->].
    apply only_shared_open_get, H.
  - destruct (dashboard_view_run construct_error str_compound up st) as [v ->].
    apply only_shared_open_get, H.
Qed.

Lemma rtc_only_shared_open (st st' : State) :
  only_shared_open st -> rtc api_call st st' -> only_shared_open st'.
Proof.
  intros H Hsteps. induction Hsteps as [|x y z Hxy _ IH]; [exact H|].
  apply IH. eapply api_call_only_shared_open; eassumption.
Qed.

(** Between calls at most one connection pool is open (while a login runs
    its own client is open as well, and is closed before the login ends).
    Starting from a state in which the only open object, if any, is the
    shared client, the same holds in the state that any sequence of
    completed logins, client requests, spec fetches, data views and closes
    leaves; and one more [close] leaves every object of the store
    closed. *)
Theorem one_open_client_at_most (st st' : State) :
  only_shared_open st ->
  rtc api_call st st' ->
  only_shared_open st'
  /\ forall i a, store (snd (close st')) !! i = Some a -> ac_closed a = true.
Proof.
  intros H Hsteps.
  pose proof (rtc_only_shared_open st st' H Hsteps) as H'.
  split; [exact H'|]. apply only_shared_open_close, H'.
Qed.

(** Used as a context manager, the client is closed however the body ends:
    the body's result or exception is the block's, the client reference is
    cleared and the token kept; and when the body is made of calls of the
    client's methods and the data views, no object of the store is left
    open. *)
Theorem async_with_releases {A} (body : M A) (st : State) :
  let out := async_with body st in
  fst out = fst (body st)
  /\ _client (self (snd out)) = None
  /\ _token (self (snd out)) = _token (self (snd (body st)))
  /\ (only_shared_open st ->
      rtc api_call st (snd (body st)) ->
      forall i a, store (snd out) !! i = Some a -> ac_closed a = true).
Proof.
  cbv zeta. unfold async_with, try_finally.
  destruct (body st) as [r st1]. rewrite close_eq. cbn [fst snd].
  split; [reflexivity|].
  split; [destruct (_client (self st1)) eqn:E; [reflexivity | exact E]|].
  split; [destruct (_client (self st1)); reflexivity|].
  intros H Hsteps.
  destruct (only_shared_open_close st1 (rtc_only_shared_open st st1 H Hsteps))
    as [_ Hall].
  rewrite close_eq in Hall. exact Hall.
Qed.

End Lifecycle.

(** ** The server wrapper *)

Section ServerMore.

Variable construct_error : constructor_check.
Variable status_error_str : Response -> string.
Variable str_compound : json -> string.
Variable FastMCP : Type.
Variable from_openapi : create_kwargs -> result FastMCP.
Variable set_instructions : string -> FastMCP -> FastMCP.
Variable add_cobalt_strike_prompts : FastMCP -> FastMCP.
Variable add_cobalt_strike_resources : FastMCP -> FastMCP.

Local Abbreviation fetch_openapi_spec :=
  (fetch_openapi_spec construct_error status_error_str str_compound).
Local Abbreviation get_authenticated_client :=
  (get_authenticated_client construct_error str_compound).
Local Abbreviation finished :=
  (finished FastMCP set_instructions add_cobalt_strike_prompts
     add_cobalt_strike_resources).

(** A client that [get_authenticated_client] returned is the one the
    session holds afterwards. *)
Lemma get_authenticated_client_held (st st' : State) (c : ref) :
  get_authenticated_client st = (Ok c, st') ->
  _client (self st') = Some c.
Proof.
  rewrite (get_authenticated_client_eq construct_error str_compound st).
  destruct (truthy (_token (self st))); [|discriminate].
  destruct (_client (self st)) as [c0|] eqn:Ec.
  - intros [= <- <-]. exact Ec.
  - destruct (construct_error _ _ _ _); [discriminate|].
    intros [= <- <-]. reflexivity.
Qed.

(** [create_server], step by step: the spec fetch decides first, and when
    it returned the shared client is held, so the second request for it
    hands out that object. *)
Lemma create_server_eq (up : Upstream) (spec_url : string)
    (me : CobaltStrikeMCPServer FastMCP) (st : State) :
  create_server construct_error status_error_str str_compound FastMCP
    from_openapi set_instructions add_cobalt_strike_prompts
    add_cobalt_strike_resources up spec_url me st
  = match fst (fetch_openapi_spec up spec_url st) with
    | Raise e =>
        (Raise e, parser_chosen _ me, snd (get_authenticated_client st))
    | Ok doc =>
        match fst (get_authenticated_client st) with
        | Raise e =>
            (Raise e, parser_chosen _ me, snd (get_authenticated_client st))
        | Ok c =>
            match
              from_openapi
                (mkCreateKwargs doc c (server_name _ me)
                   ["openapi"; "cobalt-strike"] route_maps)
            with
            | Raise e =>
                (Raise e, parser_chosen _ me,
                 snd (get_authenticated_client st))
            | Ok s0 =>
                (Ok (finished me s0),
                 with_server _ (parser_chosen _ me) (Some (finished me s0)),
                 snd (get_authenticated_client st))
            end
        end
    end.
Proof.
  unfold create_server.
  pose proof (fetch_openapi_spec_run construct_error status_error_str
                str_compound up spec_url st) as Hf.
  destruct (fetch_openapi_spec up spec_url st) as [[doc|e] st1] eqn:Ef;
    injection Hf as Hr Hst; subst st1; cbn [fst].
  - destruct (get_authenticated_client st) as [[c|e0] st1] eqn:Eg;
      cbn [fst snd] in *; [|discriminate Hr].
    rewrite (get_authenticated_client_again construct_error str_compound
               st st1 c Eg).
    unfold parser_chosen, finished, with_server.
    destruct me as [n i [] s g];
      cbn [enable_experimental_parser server_name instructions _mcp_server
           new_openapi_parser orb];
      destruct (from_openapi _); reflexivity.
  - unfold parser_chosen.
    destruct me as [n i [] s g]; reflexivity.
Qed.

Lemma create_server_refused (up : Upstream) (spec_url : string)
    (me : CobaltStrikeMCPServer FastMCP) (st : State) :
  truthy (_token (self st)) = false ->
  create_server construct_error status_error_str str_compound FastMCP
    from_openapi set_instructions add_cobalt_strike_prompts
    add_cobalt_strike_resources up spec_url me st
  = (Raise (RuntimeError "Not authenticated. Call authenticate() first."),
     parser_chosen _ me, st).
Proof.
  intros Ht. unfold create_server.
  rewrite (fetch_openapi_spec_refused construct_error status_error_str
             str_compound up spec_url st Ht).
  unfold parser_chosen. destruct me as [n i [] s g]; reflexivity.
Qed.

Local Abbreviation create_server :=
  (create_server construct_error status_error_str str_compound FastMCP
     from_openapi set_instructions add_cobalt_strike_prompts
     add_cobalt_strike_resources).

(** On a client that holds no token [create_server] raises "Not
    authenticated" before anything is requested: the session is untouched
    and the server reference stays what it was. *)
Theorem create_server_needs_login (up : Upstream) (spec_url : string)
    (me : CobaltStrikeMCPServer FastMCP) (st : State) :
  truthy (_token (self st)) = false ->
  exists me',
    create_server up spec_url me st
    = (Raise (RuntimeError "Not authenticated. Call authenticate() first."),
       me', st)
    /\ _mcp_server _ me' = _mcp_server _ me.
Proof.
  intros Ht. rewrite (create_server_refused up spec_url me st Ht).
  eexists. split; reflexivity.
Qed.

(** Whatever [create_server] does, it returns or raises in a state of the
    wrapper whose name, instructions and flag are unchanged, and in which
    the global parser setting is on if the flag is set and is otherwise
    what it was: the flag can switch the setting on, never off. *)
Theorem create_server_parser_setting (up : Upstream) (spec_url : string)
    (me : CobaltStrikeMCPServer FastMCP) (st : State) :
  let me' := snd (fst (create_server up spec_url me st)) in
  new_openapi_parser _ me'
  = enable_experimental_parser _ me || new_openapi_parser _ me
  /\ server_name _ me' = server_name _ me
  /\ instructions _ me' = instructions _ me
  /\ enable_experimental_parser _ me' = enable_experimental_parser _ me.
Proof.
  cbv zeta. rewrite create_server_eq.
  destruct (fst (fetch_openapi_spec up spec_url st));
    [destruct (fst (get_authenticated_client st));
       [destruct (from_openapi _)|]|]; repeat split.
Qed.

(** When [create_server] raises, because the spec could not be fetched or
    because the translation engine refused it, the server reference is
    what it was before; on a wrapper that never had a server, [run] then
    raises "Server not created". *)
Theorem create_server_failure (up : Upstream) (spec_url : string)
    (me me' : CobaltStrikeMCPServer FastMCP) (st st' : State) (e : exn)
    (transport host : string) (port : Z) (path : string)
    (log_level : option string) :
  create_server up spec_url me st = (Raise e, me', st') ->
  _mcp_server _ me' = _mcp_server _ me
  /\ st' = snd (get_authenticated_client st)
  /\ (_mcp_server _ me = None ->
      server_run _ me' transport host port path log_level
      = Raise (RuntimeError "Server not created. Call create_server() first.")).
Proof.
  intros H.
  assert (Hs : _mcp_server _ me' = _mcp_server _ me
               /\ st' = snd (get_authenticated_client st)).
  { rewrite create_server_eq in H.
    destruct (fst (fetch_openapi_spec up spec_url st));
      [destruct (fst (get_authenticated_client st));
         [destruct (from_openapi _)|]|]; try discriminate H;
      injection H as _ <- <-; split; reflexivity. }
  destruct Hs as [Hs Hst]. repeat split; [exact Hs | exact Hst |].
  intros Hnone. unfold server_run. rewrite Hs, Hnone. reflexivity.
Qed.

(** When [create_server] returns, the wrapper holds the server it returns;
    that server was built by the translation engine from the document
    [fetch_openapi_spec] returned, the wrapper's name, the two exclusion
    rules, and the session's shared client: the object the session holds
    in the state [create_server] leaves, and which a call of
    [get_authenticated_client] in that state hands out without changing
    anything; [run] no longer raises. *)
Theorem create_server_success (up : Upstream) (spec_url : string)
    (me me' : CobaltStrikeMCPServer FastMCP) (st st' : State)
    (server : FastMCP) (transport host : string) (port : Z) (path : string)
    (log_level : option string) :
  create_server up spec_url me st = (Ok server, me', st') ->
  _mcp_server _ me' = Some server
  /\ (exists doc c s0,
        fst (fetch_openapi_spec up spec_url st) = Ok doc
        /\ from_openapi
             (mkCreateKwargs doc c (server_name _ me)
                ["openapi"; "cobalt-strike"] route_maps) = Ok s0
        /\ server = finished me s0
        /\ get_authenticated_client st' = (Ok c, st')
        /\ _client (self st') = Some c)
  /\ exists call,
      server_run _ me' transport host port path log_level = Ok call.
Proof.
  intros H. rewrite create_server_eq in H.
  destruct (fst (fetch_openapi_spec up spec_url st)) as [doc|e0] eqn:Ef;
    [|discriminate H].
  destruct (get_authenticated_client st) as [[c|e0] st1] eqn:Eg;
    cbn [fst snd] in H; [|discriminate H].
  destruct (from_openapi _) as [s0|e0] eqn:Eo; [|discriminate H].
  injection H as <- <- <-.
  split; [reflexivity|]. split.
  - exists doc, c, s0. repeat split; try assumption.
    + exact (get_authenticated_client_again construct_error str_compound
               st st1 c Eg).
    + exact (get_authenticated_client_held st st1 c Eg).
  - unfold server_run. cbn [_mcp_server with_server].
    destruct (run_passes_normalized_path transport host port path log_level)
      as (call & Hrun & _).
    exists call. exact Hrun.
Qed.

(** [stop] clears the server reference and nothing else; a second [stop]
    changes nothing; after [stop], [run] raises "Server not created". *)
Theorem stop_then_run (me : CobaltStrikeMCPServer FastMCP)
    (transport host : string) (port : Z) (path : string)
    (log_level : option string) :
  _mcp_server _ (stop _ me) = None
  /\ stop _ (stop _ me) = stop _ me
  /\ server_name _ (stop _ me) = server_name _ me
  /\ instructions _ (stop _ me) = instructions _ me
  /\ new_openapi_parser _ (stop _ me) = new_openapi_parser _ me
  /\ server_run _ (stop _ me) transport host port path log_level
     = Raise (RuntimeError "Server not created. Call create_server() first.").
Proof.
  unfold stop, server_run.
  destruct (_mcp_server _ me) as [s|] eqn:E; cbn; rewrite ?E; repeat split.
Qed.

End ServerMore.

(** ** The further statements at concrete inputs *)

Module MoreFacts.

Import Sample.

Lemma nothing_open_at_start : only_shared_open fresh.
Proof. intros i a H. destruct i; discriminate H. Defined.

Lemma fresh_to_with_shared :
  rtc (api_call construct_error status_error_str str_compound) fresh
    with_shared.
Proof.
  eapply rtc_l.
  - apply (call_authenticate construct_error status_error_str str_compound
             healthy "alice" "secret" 86400000 "/api/auth/login" fresh).
  - eapply rtc_l; [|apply rtc_refl].
    apply (call_get_client construct_error status_error_str str_compound
             logged_in).
Defined.

End MoreFacts.

Lemma normalize_path_parameter_result_witness :
  exists d',
    _normalize_path_parameter (JDict MoreSample.blank_parameter)
      "/api/v1/beacons/{bid}"
    = JDict d'
    /\ dict_get "in" d' = JString "path"
    /\ truthy (dict_get "required" d') = true
    /\ (forall v, PyDict.lookup "default" d' = Some v -> is_blank v = false)
    /\ (forall sd v,
          PyDict.lookup "schema" d' = Some (JDict sd) ->
          PyDict.lookup "default" sd = Some v -> is_blank v = false).
Proof.
  apply (normalize_path_parameter_result MoreSample.blank_parameter
           "/api/v1/beacons/{bid}").
  reflexivity.
Defined.

Lemma failed_login_changes_nothing_witness :
  self (snd (Sample.login Sample.rejecting "mallory" Sample.with_shared))
  = self Sample.with_shared.
Proof.
  apply (failed_login_changes_nothing Sample.construct_error
           Sample.status_error_str Sample.rejecting "mallory" "secret"
           86400000 "/api/auth/login"
           Sample.with_shared
           (snd (Sample.login Sample.rejecting "mallory" Sample.with_shared))
           (RuntimeError
              "Authentication failed with status 401: bad credentials")).
  reflexivity.
Defined.

Lemma login_client_released_witness :
  Sample.login Sample.healthy "alice" Sample.unparsable
  = (Raise (InvalidURL "Invalid IPv6 address"), Sample.unparsable).
Proof.
  exact (login_client_released Sample.construct_error
           Sample.status_error_str Sample.healthy "alice" "secret" 86400000
           "/api/auth/login" Sample.unparsable).
Defined.

Lemma login_transport_error_witness :
  fst (Sample.login MoreSample.unreachable "alice" Sample.fresh)
  = Raise (RuntimeError
             "Authentication request failed: All connection attempts failed").
Proof.
  apply (login_transport_error Sample.construct_error
           Sample.status_error_str MoreSample.unreachable
           "alice" "secret" 86400000 "/api/auth/login" Sample.fresh
           (HTTPError "All connection attempts failed")).
  - reflexivity.
  - reflexivity.
  - discriminate.
Defined.

Lemma login_body_not_object_witness :
  fst (Sample.login MoreSample.not_json "alice" Sample.fresh)
  = Raise (JSONDecodeError "Expecting value").
Proof.
  apply (login_body_not_object Sample.construct_error
           Sample.status_error_str MoreSample.not_json
           "alice" "secret" 86400000 "/api/auth/login" Sample.fresh
           (mkResponse 200 "<html>" (Raise "Expecting value"))).
  - reflexivity.
  - reflexivity.
  - reflexivity.
  - discriminate.
Defined.

Lemma refused_before_login_witness :
  get_authenticated_client Sample.construct_error Sample.str_compound
    Sample.fresh
  = (Raise (RuntimeError "Not authenticated. Call authenticate() first."),
     Sample.fresh)
  /\ fetch_openapi_spec Sample.construct_error Sample.status_error_str
       Sample.str_compound Sample.healthy "/v3/api-docs" Sample.fresh
     = (Raise (RuntimeError "Not authenticated. Call authenticate() first."),
        Sample.fresh).
Proof.
  apply (refused_before_login Sample.construct_error
           Sample.status_error_str Sample.str_compound
           "https://teamserver:50443/" false Sample.half_minute Sample.fresh
           Sample.healthy "/v3/api-docs").
  apply session_init.
Defined.

Lemma fetch_spec_status_error_witness :
  fst (fetch_openapi_spec Sample.construct_error Sample.status_error_str
         Sample.str_compound MoreSample.spec_missing "/v3/api-docs"
         Sample.logged_in)
  = Raise (RuntimeError
             "Failed to fetch OpenAPI spec (status 404): no such document").
Proof.
  apply (fetch_spec_status_error Sample.construct_error
           Sample.status_error_str Sample.str_compound
           MoreSample.spec_missing "/v3/api-docs" Sample.logged_in
           (mkResponse 404 "no such document" (Raise "Expecting value")));
    reflexivity.
Defined.

Lemma fetch_spec_other_errors_witness :
  fst (fetch_openapi_spec Sample.construct_error Sample.status_error_str
         Sample.str_compound MoreSample.not_json "/v3/api-docs"
         Sample.logged_in)
  = Raise (JSONDecodeError "Expecting value").
Proof.
  apply (proj2 (fetch_spec_other_errors Sample.construct_error
                  Sample.status_error_str Sample.str_compound
                  MoreSample.not_json "/v3/api-docs"
                  Sample.logged_in eq_refl)
           (mkResponse 200 "<html>" (Raise "Expecting value"))
           "Expecting value");
    reflexivity.
Defined.

Lemma one_open_client_at_most_witness :
  only_shared_open Sample.with_shared
  /\ forall i a,
      store (snd (close Sample.with_shared)) !! i = Some a ->
      ac_closed a = true.
Proof.
  apply (one_open_client_at_most Sample.construct_error
           Sample.status_error_str Sample.str_compound
           Sample.fresh Sample.with_shared).
  - apply MoreFacts.nothing_open_at_start.
  - apply MoreFacts.fresh_to_with_shared.
Defined.

Lemma views_unauthenticated_witness :
  fst (dashboard_stats_resource Sample.construct_error Sample.str_compound
         Sample.healthy Sample.fresh)
  = Ok (exception_envelope
          (RuntimeError "Not authenticated. Call authenticate() first.")
          "Error while fetching dashboard statistics").
Proof.
  apply (f_equal fst
           (proj2 (proj2 (proj2 (proj2
              (views_unauthenticated Sample.construct_error
                 Sample.str_compound Sample.healthy
                 Sample.fresh eq_refl)))))).
Defined.

Lemma single_endpoint_views_report_status_witness :
  fst (active_listeners_resource Sample.construct_error Sample.str_compound
         MoreSample.failing Sample.logged_in)
  = Ok (JDict [("error", JString "Failed to fetch listeners");
               ("status_code", JInt 500);
               ("message", JString "Unable to retrieve listener data")]).
Proof.
  apply (proj2 (proj2
           (single_endpoint_views_report_status Sample.construct_error
              Sample.str_compound MoreSample.failing Sample.logged_in
              "/api/v1/listeners"
              (mkResponse 500 "" (Raise "Expecting value"))
              eq_refl eq_refl ltac:(discriminate)))).
  reflexivity.
Defined.

Lemma beacons_view_verbatim_witness :
  fst (active_beacons_resource Sample.construct_error Sample.str_compound
         MoreSample.not_json Sample.logged_in)
  = Ok (Verbatim "<html>").
Proof.
  apply (beacons_view_verbatim Sample.construct_error Sample.str_compound
           MoreSample.not_json
           Sample.logged_in
           (mkResponse 200 "<html>" (Raise "Expecting value")));
    reflexivity.
Defined.

Lemma parsing_views_on_200_witness :
  fst (active_listeners_resource Sample.construct_error Sample.str_compound
         Sample.healthy Sample.logged_in)
  = Ok (JDict [("metadata",
                JDict [("total_listeners", JInt 3);
                       ("status", JString "active");
                       ("last_updated", JString "real-time")]);
               ("listeners", JList (replicate 3 JNull))]).
Proof.
  apply (proj1
           (parsing_views_on_200 Sample.construct_error Sample.str_compound
              Sample.healthy
              Sample.logged_in "/api/v1/listeners"
              (mkResponse 200 "[...]" (Ok (JList (replicate 3 JNull))))
              eq_refl eq_refl eq_refl)).
  reflexivity.
Defined.

Lemma recent_activity_counts_witness :
  exists shown available activities,
    fst (recent_activity_resource Sample.construct_error Sample.str_compound
           (Sample.tasks 7) Sample.logged_in)
    = Ok (JDict [("metadata", activity_metadata shown available);
                 ("activities", activities)])
    /\ (shown <= available)%Z
    /\ (shown <= 50)%Z
    /\ available = len_or_one (JList (replicate 7 JNull))
    /\ activities = JList (take 50 (replicate 7 JNull)).
Proof.
  apply (recent_activity_counts Sample.construct_error Sample.str_compound
           (Sample.tasks 7)
           Sample.logged_in
           (mkResponse 200 "[...]" (Ok (JList (replicate 7 JNull))))
           (JList (replicate 7 JNull)));
    reflexivity.
Defined.

Lemma server_info_enriched_witness :
  exists env d,
    fst (server_info_resource Sample.construct_error Sample.str_compound
           Sample.healthy Sample.logged_in) = Ok (JDict env)
    /\ PyDict.lookup "cobalt_strike" env = Some (JDict d)
    /\ PyDict.lookup "system_information" d = Some (JString "[...]").
Proof.
  apply (server_info_enriched Sample.construct_error Sample.str_compound
           Sample.healthy
           Sample.logged_in
           (mkResponse 200 "[...]" (Ok (JList (replicate 3 JNull))))
           (mkResponse 200 "[...]" (Ok (JList (replicate 3 JNull)))));
    reflexivity.
Defined.

Lemma create_server_failure_witness :
  server_run _
    (snd (fst (MoreSample.toy_create Sample.healthy "/v3/api-docs"
                 MoreSample.toy_server Sample.logged_in)))
    "http" "127.0.0.1" 3000 "/mcp" None
  = Raise (RuntimeError "Server not created. Call create_server() first.").
Proof.
  apply (create_server_failure Sample.construct_error
           Sample.status_error_str Sample.str_compound (list string)
           MoreSample.toy_from_openapi
           MoreSample.toy_set_instructions MoreSample.toy_prompts
           MoreSample.toy_resources
           Sample.healthy "/v3/api-docs" MoreSample.toy_server
           (snd (fst (MoreSample.toy_create Sample.healthy "/v3/api-docs"
                        MoreSample.toy_server Sample.logged_in)))
           Sample.logged_in
           (snd (MoreSample.toy_create Sample.healthy "/v3/api-docs"
                   MoreSample.toy_server Sample.logged_in))
           (OtherException "not an OpenAPI document")
           "http" "127.0.0.1" 3000 "/mcp" None).
  - reflexivity.
  - reflexivity.
Defined.

Lemma create_server_success_witness :
  _mcp_server _
    (snd (fst (MoreSample.toy_create MoreSample.spec_object "/v3/api-docs"
                 MoreSample.toy_server Sample.logged_in)))
  = Some ["Cobalt Strike API"; "instructions: be careful"; "prompts";
          "resources"].
Proof.
  apply (create_server_success Sample.construct_error
           Sample.status_error_str Sample.str_compound (list string)
           MoreSample.toy_from_openapi
           MoreSample.toy_set_instructions MoreSample.toy_prompts
           MoreSample.toy_resources
           MoreSample.spec_object "/v3/api-docs" MoreSample.toy_server
           (snd (fst (MoreSample.toy_create MoreSample.spec_object
                        "/v3/api-docs" MoreSample.toy_server
                        Sample.logged_in)))
           Sample.logged_in
           (snd (MoreSample.toy_create MoreSample.spec_object "/v3/api-docs"
                   MoreSample.toy_server Sample.logged_in))
           ["Cobalt Strike API"; "instructions: be careful"; "prompts";
            "resources"]
           "http" "127.0.0.1" 3000 "/mcp" None).
  reflexivity.
Defined.
